(** * Bookstore backend: authorization middleware and subscription lifecycle

    A shallow embedding of
    - [middleware/adminAuth.js]  ([adminAuth], [requirePermission]),
    - [models/Subscription.js]   (schema, [isActive] virtual, [getPlans],
                                  the [pre('save')] hook),
    - the customer subscription routes (subscribe, cancel, auto-renew),
    - the admin subscription routes (status, extend, delete, bulk),
    - [routes/admin.js]          ([PUT /users/:id/role]).

    Conventions.  A [Date] is its time value, an integer number of
    milliseconds ([Z]); JSON numbers are integers.  A [Date] built from a
    computed number is checked against the range of valid time values
    ([Js.newDate]); the clock reading [now] is a valid time well inside that
    range.  Binary64 rounding is not represented: stored times are valid
    time values, which are exact.  A MongoDB collection is the list of
    its documents in insertion order, and [findOne] returns the first match.
    A handler is a function from the database to a response and the next
    database; every [return res.status(..).json(..)] is one branch. *)

From Stdlib Require Import ZArith List String Ascii Bool Lia DecimalString.
Import ListNotations.
Open Scope string_scope.
Open Scope Z_scope.

(** ** JavaScript values as they arrive in a JSON body or sit in a document *)
Module Js.

#[local] Unset Elimination Schemes.
Inductive value : Type :=
| Undefined
| Null
| Boolean (b : bool)
| Num (n : Z)
| Str (s : string)
| Arr (items : list value).
#[local] Set Elimination Schemes.

(** [ToBoolean]: what [!v] negates. *)
Definition truthy (v : value) : bool :=
  match v with
  | Undefined | Null => false
  | Boolean b => b
  | Num n => negb (n =? 0)
  | Str s => negb (s =? "")%string
  | Arr _ => true
  end.

Definition isArray (v : value) : bool :=
  match v with Arr _ => true | _ => false end.

(** [===] against a string literal. *)
Definition is_str (lit : string) (v : value) : bool :=
  match v with Str s => (s =? lit)%string | _ => false end.

(** [[lit1; ...].includes(v)] for an array literal of strings. *)
Definition lits_include (lits : list string) (v : value) : bool :=
  existsb (fun lit => is_str lit v) lits.

(** [arr.includes(lit)] for a string [lit]: an element matches only when it
    is that very string. *)
Definition includes (items : list value) (lit : string) : bool :=
  existsb (is_str lit) items.

(** [a || b] *)
Definition or (a b : value) : value := if truthy a then a else b.

(** [s.replace(pat, rep)] with a string pattern: the first occurrence only. *)
Fixpoint replace (pat rep s : string) : string :=
  if String.prefix pat s
  then rep ++ String.substring (String.length pat)
                               (String.length s - String.length pat) s
  else match s with
       | EmptyString => EmptyString
       | String c s' => String c (replace pat rep s')
       end.

(** The largest time value of a [Date]: 100,000,000 days either side of the
    epoch. *)
Definition MAX_TIME : Z := 8640000000000000.

Definition valid_time (t : Z) : Prop := - MAX_TIME <= t <= MAX_TIME.

(** [new Date(t)] for a number [t]: the time value, or [None] for an
    [Invalid Date] when [t] is outside the range ([TimeClip]). *)
Definition newDate (t : Z) : option Z :=
  if (- MAX_TIME <=? t) && (t <=? MAX_TIME) then Some t else None.

(** A hex digit in its lower-case spelling. *)
Definition hex_lower (c : ascii) : ascii :=
  let n := nat_of_ascii c in
  if (65 <=? n)%nat && (n <=? 70)%nat then ascii_of_nat (n + 32) else c.

(** [new ObjectId(s).toString()] for a hex string [s]: an ObjectId is read
    from hex digits of either case and prints in lower case.  Whether [s] is
    a well-formed id (24 hex digits) is not represented; ids are taken as
    well-formed. *)
Fixpoint ObjectId (s : string) : string :=
  match s with
  | EmptyString => EmptyString
  | String c s' => String (hex_lower c) (ObjectId s')
  end.

End Js.

(** ** models/User (the schema file is not part of the sources; the fields are
  the ones the middleware and the routes read and write) *)
Module User.
Record t : Type := mk
  { _id : string;
    role : string;
    permissions : Js.value }.

Definition set_role_permissions (u : t) (r : string) (p : Js.value) : t :=
  {| _id := _id u; role := r; permissions := p |}.
End User.

(** ** models/Subscription.js *)
Module Subscription.

Record t : Type := mk
  { _id : nat;
    user : string;
    plan : string;
    planName : string;
    price : Z;
    features : list string;
    status : string;
    startDate : Z;
    endDate : Z;
    paymentId : option string;
    autoRenew : bool;
    createdAt : Z;
    updatedAt : Z }.

Definition set_status (s : t) (v : string) : t :=
  mk (_id s) (user s) (plan s) (planName s) (price s) (features s)
     v (startDate s) (endDate s) (paymentId s) (autoRenew s)
     (createdAt s) (updatedAt s).

Definition set_endDate (s : t) (v : Z) : t :=
  mk (_id s) (user s) (plan s) (planName s) (price s) (features s)
     (status s) (startDate s) v (paymentId s) (autoRenew s)
     (createdAt s) (updatedAt s).

Definition set_autoRenew (s : t) (v : bool) : t :=
  mk (_id s) (user s) (plan s) (planName s) (price s) (features s)
     (status s) (startDate s) (endDate s) (paymentId s) v
     (createdAt s) (updatedAt s).

Definition set_updatedAt (s : t) (v : Z) : t :=
  mk (_id s) (user s) (plan s) (planName s) (price s) (features s)
     (status s) (startDate s) (endDate s) (paymentId s) (autoRenew s)
     (createdAt s) v.

(** [subscriptionSchema.virtual('isActive')], with [new Date()] = [now]. *)
Definition isActive (now : Z) (s : t) : bool :=
  (status s =? "active")%string && (now <? endDate s).

(** [subscriptionSchema.methods.hasFeature] *)
Definition hasFeature (s : t) (feature : string) : bool :=
  existsb (fun f => (f =? feature)%string) (features s).

Record Plan : Type := mkPlan
  { name : string;
    plan_price : Z;
    duration : Z;
    plan_features : list string;
    description : string }.

(** [subscriptionSchema.statics.getPlans] *)
Definition getPlans : list (string * Plan) :=
  [ ("basic",
     mkPlan "Basic Plan" 99 30
            ["Access to PDF books"; "Basic customer support";
             "Mobile app access"]
            "Perfect for casual readers");
    ("standard",
     mkPlan "Standard Plan" 299 30
            ["Access to PDF books"; "Priority customer support";
             "Mobile app access"; "Offline reading"; "Bookmarks & notes"]
            "Great for regular readers");
    ("premium",
     mkPlan "Premium Plan" 599 30
            ["Access to PDF books"; "Premium customer support";
             "Mobile app access"; "Offline reading"; "Bookmarks & notes";
             "Exclusive content"; "Early access to new releases"]
            "Ultimate reading experience") ].

(** [plans[key]] *)
Definition plan_at (plans : list (string * Plan)) (key : string)
  : option Plan :=
  option_map snd (find (fun kv => (fst kv =? key)%string) plans).

(** [subscriptionSchema.pre('save')]: every [save()] stamps [updatedAt]. *)
Definition pre_save (now : Z) (s : t) : t := set_updatedAt s now.

End Subscription.

(** ** The document store *)
Module Db.

Record t : Type := mk
  { users : list User.t;
    subscriptions : list Subscription.t;
    next_id : nat }.

Definition empty (us : list User.t) : t := mk us [] 0%nat.

Definition with_subscriptions (db : t) (l : list Subscription.t) : t :=
  mk (users db) l (next_id db).

Definition with_users (db : t) (l : list User.t) : t :=
  mk l (subscriptions db) (next_id db).

(** [User.findById] *)
Definition findUserById (db : t) (id : string) : option User.t :=
  find (fun u => (User._id u =? id)%string) (users db).

(** [user.save()] for a loaded user document. *)
Definition saveUser (db : t) (u : User.t) : t :=
  with_users db
    (map (fun x => if (User._id x =? User._id u)%string then u else x)
         (users db)).

(** [Subscription.findOne(filter)] *)
Definition findOne (db : t) (filter : Subscription.t -> bool)
  : option Subscription.t :=
  find filter (subscriptions db).

(** [Subscription.findById] *)
Definition findById (db : t) (id : nat) : option Subscription.t :=
  findOne db (fun s => (Subscription._id s =? id)%nat).

(** [doc.save()] for a loaded document: the pre-save hook runs, then the
    stored document with that [_id] is replaced. *)
Definition save (now : Z) (db : t) (s : Subscription.t) : t :=
  let s' := Subscription.pre_save now s in
  with_subscriptions db
    (map (fun x =>
            if (Subscription._id x =? Subscription._id s)%nat
            then s' else x)
         (subscriptions db)).

(** [new Subscription({..}).save()]: a fresh [_id], appended. *)
Definition insert (now : Z) (db : t) (mkdoc : nat -> Subscription.t) : t :=
  let s' := Subscription.pre_save now (mkdoc (next_id db)) in
  mk (users db) (subscriptions db ++ [s']) (S (next_id db)).

(** [Subscription.updateMany({_id: {$in: ids}}, update)]: no document
    middleware runs, so [updatedAt] is left alone. *)
Definition updateMany (db : t) (ids : list nat)
           (update : Subscription.t -> Subscription.t) : t :=
  with_subscriptions db
    (map (fun x =>
            if existsb (Nat.eqb (Subscription._id x)) ids
            then update x else x)
         (subscriptions db)).

(** [Subscription.deleteMany({_id: {$in: ids}})] *)
Definition deleteMany (db : t) (ids : list nat) : t :=
  with_subscriptions db
    (filter (fun x => negb (existsb (Nat.eqb (Subscription._id x)) ids))
            (subscriptions db)).

End Db.

(** ** HTTP responses *)
Module Http.

Inductive Json : Type :=
| Message (message : string)
| MessageSubscription (message : string) (subscription : Subscription.t)
| MessageUser (message : string) (user : User.t)
| MessageCount (message : string) (modifiedCount : option nat)
| Errors (errors : list string).

Record Response : Type := mk { code : nat; json : Json }.

(** [res.status(c).json({ message })] *)
Definition status (c : nat) (m : string) : Response := mk c (Message m).

(** A middleware either calls [next()] or answers the request itself. *)
Inductive Middleware (A : Type) : Type :=
| Next (a : A)
| Send (r : Response).
Arguments Next {A} a.
Arguments Send {A} r.

End Http.

(** ** middleware/adminAuth.js *)
Module AdminAuth.
Import Http.

Section WithJwt.

(** [jwt.verify(token, process.env.JWT_SECRET)] followed by [.userId];
    [None] when verification throws.  The token library is external. *)
Variable jwt_verify : string -> option string.

(** [adminAuth]: on success the loaded user becomes [req.user]. *)
Definition adminAuth (db : Db.t) (authorization : option string)
  : Middleware User.t :=
  match option_map (Js.replace "Bearer " "") authorization with
  | None => Send (status 401 "Access denied. No token provided.")
  | Some token =>
      if (token =? "")%string
      then Send (status 401 "Access denied. No token provided.")
      else
        match jwt_verify token with
        | None => Send (status 401 "Invalid token.")
        | Some userId =>
            match Db.findUserById db userId with
            | None => Send (status 401 "Invalid token.")
            | Some user =>
                if negb (existsb (String.eqb (User.role user))
                                 ["admin"; "manager"; "staff"])
                then Send (status 403 "Access denied. Admin role required.")
                else Next user
            end
        end
  end.

End WithJwt.

(** [requirePermission(permission)]; [req_user] is [req.user], which is
    [undefined] when no earlier middleware set it (reading [user.role] then
    throws and the [catch] answers 500). *)
Definition requirePermission (permission : string) (req_user : option User.t)
  : Middleware unit :=
  match req_user with
  | None => Send (status 500 "Permission check failed.")
  | Some user =>
      if (User.role user =? "admin")%string then Next tt
      else if negb (Js.truthy (User.permissions user))
              || negb (Js.isArray (User.permissions user))
      then
        if (User.role user =? "admin")%string then Next tt
        else Send (status 403
                     ("Access denied. Required permission: " ++ permission))
      else
        match User.permissions user with
        | Js.Arr items =>
            if negb (Js.includes items permission)
            then Send (status 403
                         ("Access denied. Required permission: " ++ permission))
            else Next tt
        | _ => Send (status 500 "Permission check failed.")
        end
  end.

End AdminAuth.

(** ** The customer subscription routes

    The [auth] middleware of these routes is not part of the sources; the
    handlers below start after it, with [uid] = [req.user.id]. *)
Module SubscriptionRoutes.
Import Http.

Definition MS_PER_DAY : Z := 24 * 60 * 60 * 1000.

(** The filter [{ user, status: 'active', endDate: { $gt: new Date() } }] *)
Definition active_unexpired (uid : string) (now : Z) (s : Subscription.t)
  : bool :=
  (Subscription.user s =? uid)%string
  && (Subscription.status s =? "active")%string
  && (now <? Subscription.endDate s).

(** The filter [{ user, status: 'active' }] *)
Definition stored_active (uid : string) (s : Subscription.t) : bool :=
  (Subscription.user s =? uid)%string
  && (Subscription.status s =? "active")%string.

(** [GET /current] *)
Definition current (now : Z) (uid : string) (db : Db.t)
  : option Subscription.t :=
  Db.findOne db (active_unexpired uid now).

(** The record [subscribe] builds for plan [key] with table row [p]. *)
Definition new_subscription (now : Z) (uid key : string) (p : Subscription.Plan)
           (paymentId : option string) (id : nat) : Subscription.t :=
  Subscription.mk id uid key (Subscription.name p)
    (Subscription.plan_price p) (Subscription.plan_features p)
    "active" now (now + Subscription.duration p * MS_PER_DAY)
    paymentId true now now.

(** [POST /subscribe] *)
Definition subscribe (now : Z) (uid : string)
           (plan : Js.value) (paymentId : option string) (db : Db.t)
  : Response * Db.t :=
  if negb (Js.truthy plan)
     || negb (Js.lits_include ["basic"; "standard"; "premium"] plan)
  then (status 400 "Invalid subscription plan", db)
  else
    let plans := Subscription.getPlans in
    match plan with
    | Js.Str key =>
        match Subscription.plan_at plans key with
        | None => (status 500 "Server error", db)
        | Some selectedPlan =>
            match Db.findOne db (active_unexpired uid now) with
            | Some _ =>
                (status 400 "You already have an active subscription", db)
            | None =>
                let doc := new_subscription now uid key selectedPlan paymentId in
                let db' := Db.insert now db doc in
                (mk 201 (MessageSubscription
                           "Subscription created successfully"
                           (Subscription.pre_save now (doc (Db.next_id db)))),
                 db')
            end
        end
    | _ => (status 500 "Server error", db)
    end.

(** [PUT /cancel] *)
Definition cancel (now : Z) (uid : string) (db : Db.t) : Response * Db.t :=
  match Db.findOne db (stored_active uid) with
  | None => (status 404 "No active subscription found", db)
  | Some subscription =>
      let subscription :=
        Subscription.set_autoRenew
          (Subscription.set_status subscription "cancelled") false in
      (mk 200 (MessageSubscription "Subscription cancelled successfully"
                 (Subscription.pre_save now subscription)),
       Db.save now db subscription)
  end.

(** [PUT /auto-renew] *)
Definition auto_renew (now : Z) (uid : string) (autoRenew : bool) (db : Db.t)
  : Response * Db.t :=
  match Db.findOne db (stored_active uid) with
  | None => (status 404 "No active subscription found", db)
  | Some subscription =>
      let subscription := Subscription.set_autoRenew subscription autoRenew in
      (mk 200 (MessageSubscription "Auto-renew setting updated successfully"
                 (Subscription.pre_save now subscription)),
       Db.save now db subscription)
  end.

End SubscriptionRoutes.

(** ** The admin subscription routes: every one is [adminAuth] followed by
    its handler *)
Module AdminSubscriptions.
Import Http.

Definition MS_PER_DAY : Z := 24 * 60 * 60 * 1000.

(** Handler of [PUT /:id/status] *)
Definition set_status (now : Z) (id : nat) (status_ : Js.value) (db : Db.t)
  : Response * Db.t :=
  if negb (Js.lits_include ["active"; "expired"; "cancelled"; "pending"]
                           status_)
  then (status 400 "Invalid status", db)
  else
    match Db.findById db id with
    | None => (status 404 "Subscription not found", db)
    | Some subscription =>
        match status_ with
        | Js.Str st =>
            let subscription := Subscription.set_status subscription st in
            (mk 200 (MessageSubscription
                       "Subscription status updated successfully"
                       (Subscription.pre_save now subscription)),
             Db.save now db subscription)
        | _ => (status 500 "Server error", db)
        end
    end.

(** Handler of [PUT /:id/extend].  The body field [days] is absent ([None])
    or an integer.  When the new end date is an [Invalid Date], [save()]
    rejects it and the [catch] answers 500 with nothing stored. *)
Definition extend (now : Z) (id : nat) (days : option Z) (db : Db.t)
  : Response * Db.t :=
  match days with
  | None => (status 400 "Invalid number of days", db)
  | Some days =>
      if negb (Js.truthy (Js.Num days)) || (days <=? 0)
      then (status 400 "Invalid number of days", db)
      else
        match Db.findById db id with
        | None => (status 404 "Subscription not found", db)
        | Some subscription =>
            match Js.newDate
                    (Subscription.endDate subscription + days * MS_PER_DAY)
            with
            | None => (status 500 "Server error", db)
            | Some endDate =>
                let subscription :=
                  Subscription.set_endDate subscription endDate in
                (mk 200 (MessageSubscription
                           ("Subscription extended by "
                              ++ NilZero.string_of_int (Z.to_int days)
                              ++ " days")
                           (Subscription.pre_save now subscription)),
                 Db.save now db subscription)
            end
        end
  end.

(** Handler of [DELETE /:id] *)
Definition delete (id : nat) (db : Db.t) : Response * Db.t :=
  match Db.findById db id with
  | None => (status 404 "Subscription not found", db)
  | Some _ =>
      (status 200 "Subscription deleted successfully",
       Db.with_subscriptions db
         (filter (fun x => negb (Subscription._id x =? id)%nat)
                 (Db.subscriptions db)))
  end.

Definition matched (ids : list nat) (db : Db.t) : list Subscription.t :=
  filter (fun x => existsb (Nat.eqb (Subscription._id x)) ids)
         (Db.subscriptions db).

(** [result.modifiedCount || result.deletedCount] after an [updateMany]:
    a zero count is falsy and the other field does not exist. *)
Definition modified_or_deleted (modified : nat) : option nat :=
  if (modified =? 0)%nat then None else Some modified.

Definition bulk_cancel (s : Subscription.t) : Subscription.t :=
  Subscription.set_autoRenew (Subscription.set_status s "cancelled") false.

Definition bulk_activate (s : Subscription.t) : Subscription.t :=
  Subscription.set_status s "active".

(** Handler of [POST /bulk].  [subscriptionIds] is [None] when the field is
    absent or not an array. *)
Definition bulk (action : Js.value) (subscriptionIds : option (list nat))
           (db : Db.t) : Response * Db.t :=
  match subscriptionIds with
  | None => (status 400 "Invalid request data", db)
  | Some ids =>
      if negb (Js.truthy action)
      then (status 400 "Invalid request data", db)
      else if Js.is_str "cancel" action then
        let n := List.length
                   (filter (fun x =>
                              negb ((Subscription.status x =? "cancelled")%string
                                    && negb (Subscription.autoRenew x)))
                           (matched ids db)) in
        (mk 200 (MessageCount "Bulk cancel completed successfully"
                              (modified_or_deleted n)),
         Db.updateMany db ids bulk_cancel)
      else if Js.is_str "activate" action then
        let n := List.length
                   (filter (fun x =>
                              negb (Subscription.status x =? "active")%string)
                           (matched ids db)) in
        (mk 200 (MessageCount "Bulk activate completed successfully"
                              (modified_or_deleted n)),
         Db.updateMany db ids bulk_activate)
      else if Js.is_str "delete" action then
        (mk 200 (MessageCount "Bulk delete completed successfully"
                              (Some (List.length (matched ids db)))),
         Db.deleteMany db ids)
      else (status 400 "Invalid action", db)
  end.

Section Routes.
Variable jwt_verify : string -> option string.

(** [router.put(path, adminAuth, handler)] *)
Definition guarded (authorization : option string)
           (handler : Db.t -> Response * Db.t) (db : Db.t)
  : Response * Db.t :=
  match AdminAuth.adminAuth jwt_verify db authorization with
  | Send r => (r, db)
  | Next _ => handler db
  end.

Definition put_status (now : Z) (authorization : option string)
           (id : nat) (status_ : Js.value) : Db.t -> Response * Db.t :=
  guarded authorization (set_status now id status_).

Definition put_extend (now : Z) (authorization : option string)
           (id : nat) (days : option Z) : Db.t -> Response * Db.t :=
  guarded authorization (extend now id days).

Definition delete_by_id (authorization : option string) (id : nat)
  : Db.t -> Response * Db.t :=
  guarded authorization (delete id).

Definition post_bulk (authorization : option string)
           (action : Js.value) (subscriptionIds : option (list nat))
  : Db.t -> Response * Db.t :=
  guarded authorization (bulk action subscriptionIds).

End Routes.

End AdminSubscriptions.

(** ** routes/admin.js: [PUT /users/:id/role] *)
Module AdminRoutes.
Import Http.

(** The [switch (role)] that fills [defaultPermissions]. *)
Definition defaultPermissions (role : string) : list string :=
  if (role =? "admin")%string then
    ["view_dashboard"; "manage_books"; "manage_orders"; "manage_users";
     "view_analytics"; "manage_settings"; "export_data"; "manage_permissions"]
  else if (role =? "manager")%string then
    ["view_dashboard"; "manage_books"; "manage_orders"; "view_analytics";
     "export_data"]
  else if (role =? "staff")%string then
    ["view_dashboard"; "manage_books"; "manage_orders"]
  else [].

(** The validation chain.  [role] is the body field when it is a string and
    [None] when it is absent; [permissions] is the raw body field.
    [optional()] skips an undefined field. *)
Definition validationResult (role : option string) (permissions : Js.value)
  : list string :=
  (match role with
   | Some r =>
       if existsb (String.eqb r) ["user"; "admin"; "manager"; "staff"]
       then [] else ["Invalid role"]
   | None => ["Invalid role"]
   end)
  ++
  (match permissions with
   | Js.Undefined => []
   | v => if Js.isArray v then [] else ["Permissions must be an array"]
   end).

Definition isEmpty (errors : list string) : bool :=
  match errors with [] => true | _ => false end.

(** The handler, with [req_user] the user [adminAuth] loaded and [userId]
    the path segment [req.params.id] as written in the URL.  The guard
    compares that string as it is; [User.findById] casts it to an ObjectId. *)
Definition update_role (req_user : User.t) (userId : string)
           (role : option string) (permissions : Js.value) (db : Db.t)
  : Response * Db.t :=
  let errors := validationResult role permissions in
  if negb (isEmpty errors) then (mk 400 (Errors errors), db)
  else
    match role with
    | None => (status 500 "Server error", db)
    | Some role =>
        if (User._id req_user =? userId)%string
           && (User.role req_user =? "admin")%string
           && negb (role =? "admin")%string
        then (status 400 "Cannot demote yourself from admin role", db)
        else
          match Db.findUserById db (Js.ObjectId userId) with
          | None => (status 404 "User not found", db)
          | Some user =>
              let user :=
                User.set_role_permissions user role
                  (Js.or permissions
                         (Js.Arr (map Js.Str (defaultPermissions role)))) in
              (mk 200 (MessageUser "User role updated successfully" user),
               Db.saveUser db user)
          end
    end.

Section Routes.
Variable jwt_verify : string -> option string.

(** [router.put('/users/:id/role', adminAuth,
                requirePermission('manage_permissions'), [...], handler)] *)
Definition put_user_role (authorization : option string) (userId : string)
           (role : option string) (permissions : Js.value) (db : Db.t)
  : Response * Db.t :=
  match AdminAuth.adminAuth jwt_verify db authorization with
  | Send r => (r, db)
  | Next req_user =>
      match AdminAuth.requirePermission "manage_permissions" (Some req_user)
      with
      | Send r => (r, db)
      | Next _ => update_role req_user userId role permissions db
      end
  end.

End Routes.

End AdminRoutes.

(** ** The subscription operations as one transition system *)
Module Lifecycle.

Inductive op : Type :=
| Subscribe (uid : string) (plan : Js.value) (paymentId : option string)
| Cancel (uid : string)
| SetAutoRenew (uid : string) (autoRenew : bool)
| Extend (id : nat) (days : option Z)
| SetStatus (id : nat) (status : Js.value)
| Delete (id : nat)
| Bulk (action : Js.value) (subscriptionIds : option (list nat)).

(** One request handled at time [now]. *)
Definition run (now : Z) (o : op) (db : Db.t) : Http.Response * Db.t :=
  match o with
  | Subscribe uid plan paymentId =>
      SubscriptionRoutes.subscribe now uid plan paymentId db
  | Cancel uid => SubscriptionRoutes.cancel now uid db
  | SetAutoRenew uid flag => SubscriptionRoutes.auto_renew now uid flag db
  | Extend id days => AdminSubscriptions.extend now id days db
  | SetStatus id st => AdminSubscriptions.set_status now id st db
  | Delete id => AdminSubscriptions.delete id db
  | Bulk action ids => AdminSubscriptions.bulk action ids db
  end.

(** States reached from an empty collection by requests handled at
    non-decreasing times, every request taken from [allowed]. *)
Inductive reachable (allowed : op -> bool) : Z -> Db.t -> Prop :=
| reach_init (t0 : Z) (us : list User.t) : reachable allowed t0 (Db.empty us)
| reach_step (t t' : Z) (db : Db.t) (o : op) :
    reachable allowed t db -> t <= t' -> allowed o = true ->
    reachable allowed t' (snd (run t' o db)).

Definition any_op (o : op) : bool := true.

Definition is_extend (o : op) : bool :=
  match o with Extend _ _ => true | _ => false end.

(** Requests that can put a record (back) into the stored-active and
    unexpired condition without going through [subscribe]. *)
Definition revives (o : op) : bool :=
  match o with
  | Extend _ _ => true
  | SetStatus _ st => Js.is_str "active" st
  | Bulk action _ => Js.is_str "activate" action
  | _ => false
  end.

(** [endDate = startDate + plan.duration] days. *)
Definition dates_match_plan (s : Subscription.t) : Prop :=
  exists p, Subscription.plan_at Subscription.getPlans (Subscription.plan s)
            = Some p
            /\ Subscription.endDate s
               = Subscription.startDate s
                 + Subscription.duration p * SubscriptionRoutes.MS_PER_DAY.

(** At most one record of a principal is stored active and unexpired. *)
Definition at_most_one_active (now : Z) (db : Db.t) : Prop :=
  forall uid,
    (List.length (filter (SubscriptionRoutes.active_unexpired uid now)
                         (Db.subscriptions db)) <= 1)%nat.

(** What a request [o] may do to a stored record [s] when it rewrites it
    into [s']: the identity, owner, plan and start date stay; the end date
    stays unless the request is an extension; the status stays or leaves
    ["active"] unless the request is one of the reviving ones. *)
Definition rewrites (o : op) (s s' : Subscription.t) : Prop :=
  Subscription._id s' = Subscription._id s
  /\ Subscription.user s' = Subscription.user s
  /\ Subscription.plan s' = Subscription.plan s
  /\ Subscription.startDate s' = Subscription.startDate s
  /\ (is_extend o = false ->
      Subscription.endDate s' = Subscription.endDate s)
  /\ (revives o = false ->
      Subscription.status s' = Subscription.status s
      \/ Subscription.status s' <> "active").

Definition unique_ids (db : Db.t) : Prop :=
  NoDup (map Subscription._id (Db.subscriptions db))
  /\ Forall (fun s => (Subscription._id s < Db.next_id db)%nat)
            (Db.subscriptions db).

End Lifecycle.

(** ** [POST /subscribe] in its two awaited parts

    The handler gives up control at [await Subscription.findOne(..)] and
    again at [await subscription.save()]; another request can be handled in
    between, so the look-up and the save may see different databases. *)
Module Overlap.
Import Http.

(** What the handler holds after the look-up: its answer, or the document
    it goes on to save (the fresh [_id] is supplied when it is stored). *)
Inductive checked : Type :=
| Answered (r : Response)
| ToSave (doc : nat -> Subscription.t).

(** The handler up to the look-up, run against the database of that
    moment. *)
Definition subscribe_check (now : Z) (uid : string) (plan : Js.value)
           (paymentId : option string) (db : Db.t) : checked :=
  if negb (Js.truthy plan)
     || negb (Js.lits_include ["basic"; "standard"; "premium"] plan)
  then Answered (status 400 "Invalid subscription plan")
  else
    match plan with
    | Js.Str key =>
        match Subscription.plan_at Subscription.getPlans key with
        | None => Answered (status 500 "Server error")
        | Some selectedPlan =>
            match Db.findOne db (SubscriptionRoutes.active_unexpired uid now)
            with
            | Some _ =>
                Answered (status 400 "You already have an active subscription")
            | None =>
                ToSave (SubscriptionRoutes.new_subscription
                          now uid key selectedPlan paymentId)
            end
        end
    | _ => Answered (status 500 "Server error")
    end.

(** The rest of the handler: the save, run against the database of that
    later moment. *)
Definition subscribe_save (now : Z) (doc : nat -> Subscription.t) (db : Db.t)
  : Response * Db.t :=
  (mk 201 (MessageSubscription "Subscription created successfully"
             (Subscription.pre_save now (doc (Db.next_id db)))),
   Db.insert now db doc).

End Overlap.

(** ** Reading responses as the spec's outcomes *)
Module Outcome.
Import Http.

Definition Forbidden (r : Response) : Prop := code r = 403%nat.
Definition NotFound (r : Response) : Prop := code r = 404%nat.
Definition Success (r : Response) : Prop :=
  code r = 200%nat \/ code r = 201%nat.

(** Conflict and InvalidArgument both travel as status 400; the message tells
    them apart. *)
Definition Conflict (r : Response) : Prop :=
  r = status 400 "You already have an active subscription".
Definition InvalidPlan (r : Response) : Prop :=
  r = status 400 "Invalid subscription plan".
Definition InvalidDays (r : Response) : Prop :=
  r = status 400 "Invalid number of days".
Definition InvalidStatus (r : Response) : Prop :=
  r = status 400 "Invalid status".

(** The request carries a token that verifies and resolves to the stored
    user [u]: [u] is the authenticated principal of the request. *)
Definition authenticates (jwt_verify : string -> option string) (db : Db.t)
           (authorization : option string) (u : User.t) : Prop :=
  exists header userId,
    authorization = Some header
    /\ Js.replace "Bearer " "" header <> ""
    /\ jwt_verify (Js.replace "Bearer " "" header) = Some userId
    /\ Db.findUserById db userId = Some u.

(** [u] holds the permission tag in its stored permission array. *)
Definition holds (u : User.t) (tag : string) : Prop :=
  exists items, User.permissions u = Js.Arr items /\ In (Js.Str tag) items.

(** The principal [uid] has a record stored as active with a future end date. *)
Definition has_active_unexpired (now : Z) (uid : string) (db : Db.t) : Prop :=
  exists s, In s (Db.subscriptions db)
            /\ Subscription.user s = uid
            /\ Subscription.status s = "active"
            /\ now < Subscription.endDate s.

End Outcome.

(** ** Concrete users, records and request traces used by the examples *)
Module Examples.

Definition legacy_admin : User.t := User.mk "a1" "admin" Js.Undefined.
Definition staff_member : User.t :=
  User.mk "s1" "staff"
          (Js.Arr [Js.Str "view_dashboard"; Js.Str "manage_books";
                   Js.Str "manage_orders"]).
Definition bare_manager : User.t := User.mk "m0" "manager" Js.Null.
Definition manager : User.t :=
  User.mk "m1" "manager" (Js.Arr [Js.Str "manage_permissions"]).
Definition customer : User.t := User.mk "c1" "user" (Js.Arr []).

Definition people : list User.t :=
  [legacy_admin; staff_member; bare_manager; manager; customer].

(** A token scheme for the examples: the token is the user id. *)
Definition token_is_id (token : string) : option string := Some token.

Definition day : Z := SubscriptionRoutes.MS_PER_DAY.

(** [c1] subscribes to the standard plan at time 0. *)
Definition db_one : Db.t :=
  snd (SubscriptionRoutes.subscribe 0 "c1" (Js.Str "standard") (Some "pay_1")
         (Db.empty people)).

(** On day 31 the first record is past its end date but still stored as
    active; [c1] subscribes again. *)
Definition db_two : Db.t :=
  snd (SubscriptionRoutes.subscribe (31 * day) "c1" (Js.Str "basic")
         (Some "pay_2") db_one).

(** A record stored as active whose end date (day 30) has passed on day 31. *)
Definition stale : Subscription.t :=
  Subscription.mk 7 "c1" "standard" "Standard Plan" 299 []
                  "active" 0 (30 * day) None true 0 0.

(** An admin then extends the first record by ten days. *)
Definition db_three : Db.t :=
  snd (AdminSubscriptions.extend (31 * day) 0 (Some 10) db_two).

(** Another history: [c1] cancels on day 1 and subscribes again on day 2;
    on day 3 an admin sets the cancelled record back to active, directly or
    through the bulk action. *)
Definition db_cancelled : Db.t :=
  snd (SubscriptionRoutes.cancel day "c1" db_one).

Definition db_resubscribed : Db.t :=
  snd (SubscriptionRoutes.subscribe (2 * day) "c1" (Js.Str "premium")
         (Some "pay_3") db_cancelled).

Definition db_forced : Db.t :=
  snd (AdminSubscriptions.set_status (3 * day) 0 (Js.Str "active")
         db_resubscribed).

Definition db_bulk : Db.t :=
  snd (AdminSubscriptions.bulk (Js.Str "activate") (Some [0%nat])
         db_resubscribed).

End Examples.

(** ** routes/admin.js: user deletion and the role and permission tables *)
Module AdminUsers.
Import Http.

(** [models/Order] is not part of the sources; these are the fields the
    admin routes read. *)
Record Order : Type := mkOrder
  { order_user : string;
    paymentStatus : string;
    totalAmount : Z }.

(** The answers of [DELETE /users/:id]: a plain message, or the message with
    [hasOrders: true] and [orderCount]. *)
Inductive Reply : Type :=
| Plain (r : Response)
| HasOrders (c : nat) (message : string) (orderCount : nat).

Definition reply_code (r : Reply) : nat :=
  match r with
  | Plain r => code r
  | HasOrders c _ _ => c
  end.

(** [Order.countDocuments({ user: userId })] *)
Definition countOrders (orders : list Order) (userId : string) : nat :=
  List.length (filter (fun o => (order_user o =? userId)%string) orders).

(** [User.findByIdAndDelete(userId)] removes the first document with that
    id. *)
Fixpoint findByIdAndDelete (userId : string) (l : list User.t)
  : list User.t :=
  match l with
  | [] => []
  | u :: l' =>
      if (User._id u =? userId)%string then l'
      else u :: findByIdAndDelete userId l'
  end.

(** Handler of [DELETE /users/:id].  Every use of [req.params.id] here is a
    query that casts it, so [userId] stands for the id it is read as. *)
Definition delete_user (orders : list Order) (userId : string) (db : Db.t)
  : Reply * Db.t :=
  match Db.findUserById db userId with
  | None => (Plain (status 404 "User not found"), db)
  | Some user =>
      if (User.role user =? "admin")%string
      then (Plain (status 403 "Cannot delete admin users"), db)
      else
        let orderCount := countOrders orders userId in
        if (0 <? orderCount)%nat
        then (HasOrders 400
                "Cannot delete user with existing orders. Consider deactivating instead."
                orderCount,
              db)
        else (Plain (status 200 "User deleted successfully"),
              Db.with_users db (findByIdAndDelete userId (Db.users db)))
  end.

(** The per-user figures of [GET /users]: [orders.length] and the sum of
    [totalAmount] over the paid orders. *)
Definition orderCount (orders : list Order) (u : User.t) : nat :=
  List.length (filter (fun o => (order_user o =? User._id u)%string) orders).

Definition totalSpent (orders : list Order) (u : User.t) : Z :=
  fold_left (fun sum order => sum + totalAmount order)
            (filter (fun order => (paymentStatus order =? "paid")%string)
                    (filter (fun o => (order_user o =? User._id u)%string)
                            orders))
            0.

(** The [roles] array of [GET /roles]. *)
Record RoleInfo : Type := mkRole
  { name : string;
    displayName : string;
    description : string;
    permissions : list string }.

Definition roles : list RoleInfo :=
  [ mkRole "admin" "Administrator" "Full system access"
           ["view_dashboard"; "manage_books"; "manage_orders"; "manage_users";
            "view_analytics"; "manage_settings"; "export_data";
            "manage_permissions"];
    mkRole "manager" "Manager"
           "Management access to books, orders, and analytics"
           ["view_dashboard"; "manage_books"; "manage_orders";
            "view_analytics"; "export_data"];
    mkRole "staff" "Staff" "Basic access to books and orders"
           ["view_dashboard"; "manage_books"; "manage_orders"];
    mkRole "user" "Customer" "Customer account" [] ].

(** [User.countDocuments({ role: role.name })] for each entry. *)
Definition userCounts (db : Db.t) : list (RoleInfo * nat) :=
  map (fun role =>
         (role,
          List.length (filter (fun u => (User.role u =? name role)%string)
                              (Db.users db))))
      roles.

(** The [name]s of the [permissions] array of [GET /permissions]. *)
Definition permission_names : list string :=
  ["view_dashboard"; "manage_books"; "manage_orders"; "manage_users";
   "view_analytics"; "manage_settings"; "export_data"; "manage_permissions"].

Section Routes.
Variable jwt_verify : string -> option string.

(** [router.delete('/users/:id', adminAuth,
                   requirePermission('manage_users'), handler)] *)
Definition delete_user_route (authorization : option string)
           (orders : list Order) (userId : string) (db : Db.t)
  : Reply * Db.t :=
  match AdminAuth.adminAuth jwt_verify db authorization with
  | Send r => (Plain r, db)
  | Next req_user =>
      match AdminAuth.requirePermission "manage_users" (Some req_user) with
      | Send r => (Plain r, db)
      | Next _ => delete_user orders userId db
      end
  end.

End Routes.

End AdminUsers.

(** ** The admin subscription routes: [GET /stats] and [GET /:id] *)
Module SubscriptionStats.

Record t : Type := mk
  { total : nat;
    active : nat;
    expired : nat;
    cancelled : nat;
    monthlyRevenue : Z;
    planDistribution : list (string * nat) }.

(** [Subscription.countDocuments(filter)] *)
Definition countDocuments (db : Db.t) (filter_ : Subscription.t -> bool)
  : nat :=
  List.length (filter filter_ (Db.subscriptions db)).

(** One document entering the [$group] stage keyed by [key]:
    [count: { $sum: 1 }]. *)
Fixpoint bump (key : string) (groups : list (string * nat))
  : list (string * nat) :=
  match groups with
  | [] => [(key, 1%nat)]
  | (k, n) :: rest =>
      if (k =? key)%string then (k, S n) :: rest
      else (k, n) :: bump key rest
  end.

(** [{ $group: { _id: '$plan', count: { $sum: 1 } } }], then the [reduce]
    into an object keyed by plan. *)
Definition group_by_plan (docs : list Subscription.t) : list (string * nat) :=
  fold_left (fun groups s => bump (Subscription.plan s) groups) docs [].

(** [acc[plan]] on the resulting object. *)
Definition count_of (groups : list (string * nat)) (plan : string)
  : option nat :=
  option_map snd (find (fun kv => (fst kv =? plan)%string) groups).

(** The [$match] of the revenue pipeline; [monthStart] is
    [new Date(year, month, 1)] of the current month. *)
Definition revenue_match (monthStart : Z) (s : Subscription.t) : bool :=
  (monthStart <=? Subscription.createdAt s)
  && existsb (String.eqb (Subscription.status s)) ["active"; "expired"].

(** The revenue pipeline: no group at all when nothing matches, otherwise
    one group with [total: { $sum: '$price' }]. *)
Definition revenueResult (monthStart : Z) (db : Db.t) : list Z :=
  match filter (revenue_match monthStart) (Db.subscriptions db) with
  | [] => []
  | docs => [fold_left (fun sum s => sum + Subscription.price s) docs 0]
  end.

(** Handler of [GET /stats] *)
Definition stats (now monthStart : Z) (db : Db.t) : t :=
  let total := countDocuments db (fun _ => true) in
  let active :=
    countDocuments db
      (fun s => (Subscription.status s =? "active")%string
                && (now <? Subscription.endDate s)) in
  let expired :=
    countDocuments db (fun s => (Subscription.status s =? "expired")%string) in
  let cancelled :=
    countDocuments db
      (fun s => (Subscription.status s =? "cancelled")%string) in
  let monthlyRevenue :=
    match revenueResult monthStart db with
    | [] => 0
    | total :: _ => if total =? 0 then 0 else total
    end in
  mk total active expired cancelled monthlyRevenue
     (group_by_plan (Db.subscriptions db)).

(** Handler of [GET /:id] *)
Definition get_by_id (id : nat) (db : Db.t)
  : Http.Response + Subscription.t :=
  match Db.findById db id with
  | None => inl (Http.status 404 "Subscription not found")
  | Some subscription => inr subscription
  end.

End SubscriptionStats.

(** ** The admin permission migration script *)
Module Migration.

Definition fullPermissions : list string :=
  ["view_dashboard"; "manage_books"; "manage_orders"; "manage_users";
   "view_analytics"; "manage_settings"; "export_data"; "manage_permissions"].

(** The query [{ role: 'admin', $or: [{ permissions: { $exists: false } },
    { permissions: { $size: 0 } }, { permissions: null }] }] *)
Definition needs_migration (u : User.t) : bool :=
  (User.role u =? "admin")%string
  && match User.permissions u with
     | Js.Undefined => true
     | Js.Arr [] => true
     | Js.Null => true
     | _ => false
     end.

(** [user.permissions = fullPermissions] *)
Definition with_full_permissions (u : User.t) : User.t :=
  User.set_role_permissions u (User.role u)
    (Js.Arr (map Js.Str fullPermissions)).

(** [migrateAdminPermissions]: the [for] loop over the users found, each
    one saved in turn. *)
Definition migrateAdminPermissions (db : Db.t) : Db.t :=
  fold_left (fun d user => Db.saveUser d (with_full_permissions user))
            (filter needs_migration (Db.users db))
            db.

End Migration.

(** ** Facts about stored subscriptions that every request keeps *)
Module Stored.

Definition statuses : list string :=
  ["active"; "expired"; "cancelled"; "pending"].

(** [s'] is what some request handled at [now] made of the stored [s]. *)
Definition evolves (now : Z) (s s' : Subscription.t) : Prop :=
  Subscription._id s' = Subscription._id s
  /\ Subscription.user s' = Subscription.user s
  /\ Subscription.plan s' = Subscription.plan s
  /\ Subscription.planName s' = Subscription.planName s
  /\ Subscription.price s' = Subscription.price s
  /\ Subscription.features s' = Subscription.features s
  /\ Subscription.startDate s' = Subscription.startDate s
  /\ Subscription.paymentId s' = Subscription.paymentId s
  /\ Subscription.createdAt s' = Subscription.createdAt s
  /\ (Subscription.status s' = Subscription.status s
      \/ In (Subscription.status s') statuses)
  /\ Subscription.endDate s <= Subscription.endDate s'
  /\ (Subscription.updatedAt s' = Subscription.updatedAt s
      \/ Subscription.updatedAt s' = now).

(** The stored record agrees with the schema's status enumeration and with
    its row of the plan table, ends no earlier than the plan's duration
    after its start, and carries timestamps in order up to [now]. *)
Definition sound (now : Z) (s : Subscription.t) : Prop :=
  In (Subscription.status s) statuses
  /\ (exists p,
         Subscription.plan_at Subscription.getPlans (Subscription.plan s)
         = Some p
         /\ Subscription.planName s = Subscription.name p
         /\ Subscription.price s = Subscription.plan_price p
         /\ Subscription.features s = Subscription.plan_features p
         /\ Subscription.startDate s
            + Subscription.duration p * SubscriptionRoutes.MS_PER_DAY
            <= Subscription.endDate s)
  /\ Subscription.startDate s <= Subscription.createdAt s
  /\ Subscription.createdAt s <= Subscription.updatedAt s
  /\ Subscription.updatedAt s <= now.

End Stored.

(** ** More concrete data for the examples *)
Module Examples2.

Definition orders : list AdminUsers.Order :=
  [ AdminUsers.mkOrder "c1" "paid" 450;
    AdminUsers.mkOrder "c1" "pending" 120 ].

Definition user_manager : User.t :=
  User.mk "m2" "manager" (Js.Arr [Js.Str "manage_users"]).

Definition empty_admin : User.t := User.mk "a2" "admin" (Js.Arr []).

Definition newcomer : User.t := User.mk "c2" "user" (Js.Arr []).

Definition staff_db : Db.t :=
  Db.mk [Examples.legacy_admin; empty_admin; user_manager;
         Examples.customer; newcomer] [] 0.

End Examples2.

(** * Properties *)

Import Http.

(** ** Facts about the JavaScript helpers *)

Lemma is_str_true (lit : string) (v : Js.value) :
  Js.is_str lit v = true <-> v = Js.Str lit.
Proof.
  destruct v; simpl; split; intro H; try discriminate.
  - apply String.eqb_eq in H. now subst.
  - injection H as ->. apply String.eqb_refl.
Qed.

Lemma lits_include_spec (lits : list string) (v : Js.value) :
  Js.lits_include lits v = true <-> exists k, v = Js.Str k /\ In k lits.
Proof.
  unfold Js.lits_include. rewrite existsb_exists. split.
  - intros (k & Hin & Hk). apply is_str_true in Hk. eauto.
  - intros (k & -> & Hin). exists k. split; [assumption|].
    now apply is_str_true.
Qed.

Lemma includes_spec (items : list Js.value) (lit : string) :
  Js.includes items lit = true <-> In (Js.Str lit) items.
Proof.
  unfold Js.includes. rewrite existsb_exists. split.
  - intros (v & Hin & Hv). apply is_str_true in Hv. now subst.
  - intro Hin. exists (Js.Str lit). split; [assumption|].
    now apply is_str_true.
Qed.

Lemma truthy_of_literal (lits : list string) (v : Js.value) :
  ~ In "" lits -> Js.lits_include lits v = true -> Js.truthy v = true.
Proof.
  intros Hne H. apply lits_include_spec in H as (k & -> & Hin). simpl.
  destruct (String.eqb_spec k ""); [subst; contradiction | reflexivity].
Qed.

(** ** Authorization *)

Lemma requirePermission_admin (p : User.t) (t : string) :
  User.role p = "admin" -> AdminAuth.requirePermission t (Some p) = Next tt.
Proof.
  intro H. unfold AdminAuth.requirePermission. now rewrite H.
Qed.

Lemma requirePermission_non_admin (p : User.t) (t : string) :
  User.role p <> "admin" ->
  AdminAuth.requirePermission t (Some p)
  = if match User.permissions p with
       | Js.Arr items => Js.includes items t
       | _ => false
       end
    then Next tt
    else Send (status 403 ("Access denied. Required permission: " ++ t)).
Proof.
  intro H. unfold AdminAuth.requirePermission.
  destruct (String.eqb_spec (User.role p) "admin") as [E | _];
    [contradiction|].
  destruct (User.permissions p) as [ | | b | n | s | items ]; simpl;
    try reflexivity.
  - now destruct b.
  - now destruct (n =? 0).
  - now destruct (s =? "")%string.
  - now destruct (Js.includes items t).
Qed.

Lemma holds_includes (p : User.t) (t : string) :
  Outcome.holds p t
  <-> match User.permissions p with
      | Js.Arr items => Js.includes items t
      | _ => false
      end = true.
Proof.
  unfold Outcome.holds. split.
  - intros (items & -> & Hin). now apply includes_spec.
  - destruct (User.permissions p); try discriminate.
    intro H. apply includes_spec in H. eauto.
Qed.

(** C1.  The permission check lets every admin through whatever the stored
    permission field holds; a non-admin gets through exactly when the stored
    field is an array containing the tag; every other non-admin (tag absent,
    or field missing, null or not an array) is answered 403. *)
Theorem requirePermission_decision (p : User.t) (t : string) :
  (User.role p = "admin" ->
   AdminAuth.requirePermission t (Some p) = Next tt)
  /\ (User.role p <> "admin" ->
      (AdminAuth.requirePermission t (Some p) = Next tt
       <-> exists items,
             User.permissions p = Js.Arr items /\ In (Js.Str t) items))
  /\ (User.role p <> "admin" ->
      ~ (exists items,
            User.permissions p = Js.Arr items /\ In (Js.Str t) items) ->
      AdminAuth.requirePermission t (Some p)
      = Send (status 403 ("Access denied. Required permission: " ++ t))).
Proof.
  split; [apply requirePermission_admin|].
  split; intro Hrole; rewrite (requirePermission_non_admin p t Hrole);
    pose proof (holds_includes p t) as Hh; unfold Outcome.holds in Hh;
    destruct (match User.permissions p with
              | Js.Arr items => Js.includes items t
              | _ => false
              end).
  - split; [intros _; now apply Hh | reflexivity].
  - split; [discriminate|]. intro H. apply Hh in H. discriminate.
  - intro Hno. exfalso. apply Hno. now apply Hh.
  - reflexivity.
Qed.

Lemma requirePermission_decision_witness :
  AdminAuth.requirePermission "manage_orders" (Some Examples.legacy_admin)
  = Next tt
  /\ (AdminAuth.requirePermission "manage_orders" (Some Examples.staff_member)
      = Next tt
      <-> exists items,
            User.permissions Examples.staff_member = Js.Arr items
            /\ In (Js.Str "manage_orders") items)
  /\ AdminAuth.requirePermission "manage_orders" (Some Examples.bare_manager)
     = Send (status 403 "Access denied. Required permission: manage_orders").
Proof.
  split; [|split].
  - apply (proj1 (requirePermission_decision Examples.legacy_admin
                    "manage_orders")).
    reflexivity.
  - apply (proj1 (proj2 (requirePermission_decision Examples.staff_member
                           "manage_orders"))).
    discriminate.
  - apply (proj2 (proj2 (requirePermission_decision Examples.bare_manager
                           "manage_orders"))).
    + discriminate.
    + intros (items & Heq & _). discriminate.
Defined.

(** ** The effective-activity predicate *)

(** C9.  [isActive] holds exactly for a record whose stored status is
    ["active"] and whose end date lies after the current time; a record stored
    as active whose end date has passed is not active. *)
Theorem isActive_iff (now : Z) (s : Subscription.t) :
  (Subscription.isActive now s = true
   <-> Subscription.status s = "active" /\ Subscription.endDate s > now)
  /\ (Subscription.status s = "active" -> Subscription.endDate s <= now ->
      Subscription.isActive now s = false).
Proof.
  unfold Subscription.isActive. split.
  - rewrite andb_true_iff, String.eqb_eq, Z.ltb_lt. intuition lia.
  - intros -> Hpast. simpl. now apply Z.ltb_ge.
Qed.

Lemma isActive_iff_witness :
  Subscription.isActive (31 * Examples.day) Examples.stale = false.
Proof.
  apply (proj2 (isActive_iff (31 * Examples.day) Examples.stale)).
  - reflexivity.
  - vm_compute. discriminate.
Defined.

(** ** Shape of the handlers' answers *)

Lemma find_none_iff {A : Type} (f : A -> bool) (l : list A) :
  find f l = None <-> forall x, In x l -> f x = false.
Proof.
  split.
  - apply find_none.
  - induction l as [|a l IH]; simpl; intro H; [reflexivity|].
    rewrite (H a (or_introl eq_refl)). apply IH. intros x Hx.
    apply H. now right.
Qed.

Lemma find_some_iff_exists {A : Type} (f : A -> bool) (l : list A) :
  (exists x, find f l = Some x) <-> exists x, In x l /\ f x = true.
Proof.
  split.
  - intros (x & H). apply find_some in H. eauto.
  - intros (x & Hin & Hf). destruct (find f l) eqn:E; [eauto|].
    rewrite (find_none _ _ E x Hin) in Hf. discriminate.
Qed.

Lemma active_unexpired_true (uid : string) (now : Z) (s : Subscription.t) :
  SubscriptionRoutes.active_unexpired uid now s = true
  <-> Subscription.user s = uid /\ Subscription.status s = "active"
      /\ now < Subscription.endDate s.
Proof.
  unfold SubscriptionRoutes.active_unexpired.
  rewrite !andb_true_iff, !String.eqb_eq, Z.ltb_lt. tauto.
Qed.

Lemma stored_active_true (uid : string) (s : Subscription.t) :
  SubscriptionRoutes.stored_active uid s = true
  <-> Subscription.user s = uid /\ Subscription.status s = "active".
Proof.
  unfold SubscriptionRoutes.stored_active.
  rewrite andb_true_iff, !String.eqb_eq. tauto.
Qed.

Lemma subscribe_invalid (now : Z) (uid : string) (plan : Js.value)
      (paymentId : option string) (db : Db.t) :
  Js.lits_include ["basic"; "standard"; "premium"] plan = false ->
  SubscriptionRoutes.subscribe now uid plan paymentId db
  = (status 400 "Invalid subscription plan", db).
Proof.
  intro H. unfold SubscriptionRoutes.subscribe. rewrite H.
  now rewrite orb_true_r.
Qed.

Lemma subscribe_valid (now : Z) (uid key : string)
      (paymentId : option string) (db : Db.t) :
  In key ["basic"; "standard"; "premium"] ->
  exists p,
    Subscription.plan_at Subscription.getPlans key = Some p
    /\ SubscriptionRoutes.subscribe now uid (Js.Str key) paymentId db
       = match Db.findOne db (SubscriptionRoutes.active_unexpired uid now) with
         | Some _ =>
             (status 400 "You already have an active subscription", db)
         | None =>
             (mk 201 (MessageSubscription "Subscription created successfully"
                        (SubscriptionRoutes.new_subscription now uid key p paymentId
                                          (Db.next_id db))),
              Db.mk (Db.users db)
                    (Db.subscriptions db
                       ++ [SubscriptionRoutes.new_subscription now uid key p paymentId
                                            (Db.next_id db)])
                    (S (Db.next_id db)))
         end.
Proof.
  simpl. intros [<- | [<- | [<- | []]]];
    (eexists; split; [reflexivity|]);
    unfold SubscriptionRoutes.subscribe; simpl;
    destruct (Db.findOne db _); reflexivity.
Qed.

(** ** Malformed input *)

(** C10.  Each handler answers with its invalid-argument response exactly on
    malformed input: [subscribe] exactly when the plan is not one of basic,
    standard, premium; [extend] exactly when the number of days is at most 0;
    [setStatus] exactly when the new status is not one of pending, active,
    cancelled, expired. *)
Theorem invalid_argument_exactly
        (now : Z) (uid : string) (paymentId : option string) (id : nat)
        (db : Db.t) (plan : Js.value) (days : Z) (st : Js.value) :
  (Outcome.InvalidPlan
     (fst (SubscriptionRoutes.subscribe now uid plan paymentId db))
   <-> ~ (exists k, plan = Js.Str k /\ In k ["basic"; "standard"; "premium"]))
  /\ (Outcome.InvalidDays
        (fst (AdminSubscriptions.extend now id (Some days) db))
      <-> days <= 0)
  /\ (Outcome.InvalidStatus
        (fst (AdminSubscriptions.set_status now id st db))
      <-> ~ (exists k, st = Js.Str k
                       /\ In k ["pending"; "active"; "cancelled"; "expired"])).
Proof.
  split; [|split].
  - destruct (Js.lits_include ["basic"; "standard"; "premium"] plan) eqn:E.
    + apply lits_include_spec in E as (k & -> & Hin).
      destruct (subscribe_valid now uid k paymentId db Hin) as (p & _ & ->).
      split.
      * destruct (Db.findOne db _); intro Hr; inversion Hr.
      * intro H. exfalso. apply H. eauto.
    + rewrite (subscribe_invalid _ _ _ _ _ E). split.
      * intros _ H. apply lits_include_spec in H. congruence.
      * intros _. reflexivity.
  - unfold AdminSubscriptions.extend. simpl.
    destruct (Z.eqb_spec days 0) as [-> | Hnz]; simpl.
    + split; [lia | reflexivity].
    + destruct (Z.leb_spec days 0) as [Hle | Hgt].
      * split; [lia | reflexivity].
      * split; [|lia].
        destruct (Db.findById db id); [|intro Hr; inversion Hr].
        destruct (Js.newDate _); intro Hr; inversion Hr.
  - unfold AdminSubscriptions.set_status.
    destruct (Js.lits_include ["active"; "expired"; "cancelled"; "pending"] st)
      eqn:E; simpl.
    + apply lits_include_spec in E as (k & -> & Hin). split.
      * destruct (Db.findById db id); intro Hr; inversion Hr.
      * intro H. exfalso. apply H. exists k. split; [reflexivity|].
        simpl in *. tauto.
    + split; [|reflexivity].
      intros _ (k & -> & Hin).
      assert (Js.lits_include ["active"; "expired"; "cancelled"; "pending"]
                              (Js.Str k) = true) as E'.
      { apply lits_include_spec. exists k. split; [reflexivity|].
        simpl in *. tauto. }
      congruence.
Qed.

(** An absent [days] field is malformed input as well. *)
Lemma extend_missing_days (now : Z) (id : nat) (db : Db.t) :
  AdminSubscriptions.extend now id None db
  = (status 400 "Invalid number of days", db).
Proof. reflexivity. Qed.

(** ** Subscribing *)

Lemma findOne_active_unexpired (now : Z) (uid : string) (db : Db.t) :
  (exists s, Db.findOne db (SubscriptionRoutes.active_unexpired uid now)
             = Some s)
  <-> Outcome.has_active_unexpired now uid db.
Proof.
  unfold Db.findOne, Outcome.has_active_unexpired.
  rewrite find_some_iff_exists.
  split; intros (s & Hin & H); exists s; split; try assumption;
    now apply active_unexpired_true.
Qed.

(** C2, as stated, fails: with an unknown plan the plan check answers first,
    although the principal has an active, unexpired subscription. *)
Lemma subscribe_conflict_unknown_plan :
  Outcome.has_active_unexpired Examples.day "c1" Examples.db_one
  /\ ~ Outcome.Conflict
       (fst (SubscriptionRoutes.subscribe Examples.day "c1" (Js.Str "gold")
               (Some "pay_9") Examples.db_one))
  /\ Outcome.InvalidPlan
       (fst (SubscriptionRoutes.subscribe Examples.day "c1" (Js.Str "gold")
               (Some "pay_9") Examples.db_one)).
Proof.
  split; [|split].
  - eexists. split; [left; reflexivity|]. repeat split.
  - intro H. vm_compute in H. discriminate H.
  - reflexivity.
Qed.

(** C2, amended.  For a plan among basic, standard, premium, [subscribe]
    answers Conflict exactly when the principal has a record stored as active
    whose end date is in the future; and when every record of the principal
    has its end date at or before the current time, whatever its stored
    status, [subscribe] answers 201 and appends the new active record. *)
Theorem subscribe_conflict_iff
        (now : Z) (uid key : string) (paymentId : option string) (db : Db.t) :
  In key ["basic"; "standard"; "premium"] ->
  (Outcome.Conflict
     (fst (SubscriptionRoutes.subscribe now uid (Js.Str key) paymentId db))
   <-> Outcome.has_active_unexpired now uid db)
  /\ ((forall s, In s (Db.subscriptions db) -> Subscription.user s = uid ->
                 Subscription.endDate s <= now) ->
      exists p,
        Subscription.plan_at Subscription.getPlans key = Some p
        /\ SubscriptionRoutes.subscribe now uid (Js.Str key) paymentId db
           = (mk 201 (MessageSubscription "Subscription created successfully"
                        (SubscriptionRoutes.new_subscription
                           now uid key p paymentId (Db.next_id db))),
              Db.mk (Db.users db)
                    (Db.subscriptions db
                       ++ [SubscriptionRoutes.new_subscription
                             now uid key p paymentId (Db.next_id db)])
                    (S (Db.next_id db)))).
Proof.
  intro Hkey.
  destruct (subscribe_valid now uid key paymentId db Hkey) as (p & Hp & Heq).
  rewrite Heq. rewrite <- findOne_active_unexpired. split.
  - destruct (Db.findOne db _) as [s|]; simpl; split.
    + eauto.
    + reflexivity.
    + intro H. inversion H.
    + intros (s & H). discriminate.
  - intro Hpast. exists p. split; [assumption|].
    destruct (Db.findOne db _) as [s|] eqn:E; [|reflexivity].
    exfalso. apply find_some in E as (Hin & Hact).
    apply active_unexpired_true in Hact as (Hu & _ & Hlt).
    specialize (Hpast s Hin Hu). lia.
Qed.

Lemma subscribe_conflict_iff_witness :
  Outcome.Conflict
    (fst (SubscriptionRoutes.subscribe Examples.day "c1" (Js.Str "basic")
            (Some "pay_2") Examples.db_one))
  <-> Outcome.has_active_unexpired Examples.day "c1" Examples.db_one.
Proof.
  apply (subscribe_conflict_iff Examples.day "c1" "basic" (Some "pay_2")
                                Examples.db_one).
  simpl. tauto.
Defined.

(** ** The role gate of the admin routes *)

Lemma existsb_eqb_In (a : string) (l : list string) :
  existsb (String.eqb a) l = true <-> In a l.
Proof.
  rewrite existsb_exists. split.
  - intros (x & Hin & E). apply String.eqb_eq in E. now subst.
  - intro Hin. exists a. split; [assumption | apply String.eqb_refl].
Qed.

Lemma adminAuth_authenticated (jwt_verify : string -> option string)
      (db : Db.t) (authorization : option string) (u : User.t) :
  Outcome.authenticates jwt_verify db authorization u ->
  AdminAuth.adminAuth jwt_verify db authorization
  = if existsb (String.eqb (User.role u)) ["admin"; "manager"; "staff"]
    then Next u
    else Send (status 403 "Access denied. Admin role required.").
Proof.
  intros (header & userId & -> & Hne & Hv & Hf).
  unfold AdminAuth.adminAuth. cbn [option_map].
  destruct (String.eqb_spec (Js.replace "Bearer " "" header) "") as [E | _];
    [contradiction|].
  rewrite Hv, Hf.
  now destruct (existsb (String.eqb (User.role u)) _).
Qed.

Lemma findUserById_id (db : Db.t) (id : string) (u : User.t) :
  Db.findUserById db id = Some u -> User._id u = id.
Proof.
  unfold Db.findUserById. intro H. apply find_some in H as (_ & E).
  now apply String.eqb_eq in E.
Qed.

Lemma findUserById_saveUser (db : Db.t) (u u0 : User.t) :
  Db.findUserById db (User._id u) = Some u0 ->
  Db.findUserById (Db.saveUser db u) (User._id u) = Some u.
Proof.
  unfold Db.findUserById, Db.saveUser, Db.with_users. simpl.
  induction (Db.users db) as [|x l IH]; simpl; [discriminate|].
  destruct (String.eqb_spec (User._id x) (User._id u)) as [E | E].
  - intros _. now rewrite String.eqb_refl.
  - intro H. destruct (String.eqb_spec (User._id x) (User._id u));
      [contradiction | auto].
Qed.

(** C4, as stated, fails: a manager is not an admin, yet [adminAuth] lets the
    request through and both handlers run and change the record. *)
Lemma manager_extends_and_sets_status :
  Outcome.authenticates Examples.token_is_id Examples.db_one
                        (Some "Bearer m1") Examples.manager
  /\ User.role Examples.manager <> "admin"
  /\ Outcome.Success
       (fst (AdminSubscriptions.put_extend Examples.token_is_id Examples.day
               (Some "Bearer m1") 0 (Some 10) Examples.db_one))
  /\ snd (AdminSubscriptions.put_extend Examples.token_is_id Examples.day
            (Some "Bearer m1") 0 (Some 10) Examples.db_one)
     <> Examples.db_one
  /\ Outcome.Success
       (fst (AdminSubscriptions.put_status Examples.token_is_id Examples.day
               (Some "Bearer m1") 0 (Js.Str "expired") Examples.db_one))
  /\ snd (AdminSubscriptions.put_status Examples.token_is_id Examples.day
            (Some "Bearer m1") 0 (Js.Str "expired") Examples.db_one)
     <> Examples.db_one.
Proof.
  repeat apply conj.
  - exists "Bearer m1", "m1". repeat split. discriminate.
  - discriminate.
  - left. reflexivity.
  - vm_compute. discriminate.
  - left. reflexivity.
  - vm_compute. discriminate.
Qed.

(** C4, amended.  [extend] and [setStatus] are open to the back-office roles
    admin, manager and staff only: for an authenticated principal with any
    other role, both routes answer 403 and leave the database as it was. *)
Theorem admin_subscription_routes_forbidden
        (jwt_verify : string -> option string) (db : Db.t)
        (authorization : option string) (u : User.t)
        (now : Z) (id : nat) (days : option Z) (st : Js.value) :
  Outcome.authenticates jwt_verify db authorization u ->
  ~ In (User.role u) ["admin"; "manager"; "staff"] ->
  (Outcome.Forbidden
     (fst (AdminSubscriptions.put_extend jwt_verify now authorization id days
                                         db))
   /\ snd (AdminSubscriptions.put_extend jwt_verify now authorization id days
                                        db) = db)
  /\ (Outcome.Forbidden
        (fst (AdminSubscriptions.put_status jwt_verify now authorization id st
                                            db))
      /\ snd (AdminSubscriptions.put_status jwt_verify now authorization id st
                                           db) = db).
Proof.
  intros Hauth Hrole.
  unfold AdminSubscriptions.put_extend, AdminSubscriptions.put_status,
    AdminSubscriptions.guarded.
  rewrite (adminAuth_authenticated _ _ _ _ Hauth).
  destruct (existsb (String.eqb (User.role u)) _) eqn:E.
  - apply existsb_eqb_In in E. contradiction.
  - repeat split.
Qed.

Lemma admin_subscription_routes_forbidden_witness :
  (Outcome.Forbidden
     (fst (AdminSubscriptions.put_extend Examples.token_is_id Examples.day
             (Some "Bearer c1") 0 (Some 10) Examples.db_one))
   /\ snd (AdminSubscriptions.put_extend Examples.token_is_id Examples.day
             (Some "Bearer c1") 0 (Some 10) Examples.db_one)
      = Examples.db_one)
  /\ (Outcome.Forbidden
        (fst (AdminSubscriptions.put_status Examples.token_is_id Examples.day
                (Some "Bearer c1") 0 (Js.Str "expired") Examples.db_one))
      /\ snd (AdminSubscriptions.put_status Examples.token_is_id Examples.day
                (Some "Bearer c1") 0 (Js.Str "expired") Examples.db_one)
         = Examples.db_one).
Proof.
  apply (admin_subscription_routes_forbidden Examples.token_is_id
           Examples.db_one (Some "Bearer c1") Examples.customer).
  - exists "Bearer c1", "c1". repeat split. discriminate.
  - simpl. intros [H | [H | [H | []]]]; discriminate.
Defined.

(** ** Changing a role *)

(** C5, as stated, fails: a manager who was granted [manage_permissions]
    passes both middlewares and turns another principal into an admin. *)
Lemma manager_with_permission_changes_role :
  Outcome.authenticates Examples.token_is_id Examples.db_one
                        (Some "Bearer m1") Examples.manager
  /\ User.role Examples.manager <> "admin"
  /\ User._id Examples.customer <> User._id Examples.manager
  /\ Outcome.Success
       (fst (AdminRoutes.put_user_role Examples.token_is_id
               (Some "Bearer m1") "c1" (Some "admin") Js.Undefined
               Examples.db_one))
  /\ option_map User.role
       (Db.findUserById
          (snd (AdminRoutes.put_user_role Examples.token_is_id
                  (Some "Bearer m1") "c1" (Some "admin") Js.Undefined
                  Examples.db_one))
          "c1")
     = Some "admin".
Proof.
  repeat apply conj.
  - exists "Bearer m1", "m1". repeat split. discriminate.
  - discriminate.
  - discriminate.
  - left. reflexivity.
  - reflexivity.
Qed.

(** C5, amended.  A role change needs a back-office role and the
    [manage_permissions] permission, which every admin has: for an
    authenticated actor who is not an admin and who is neither manager nor
    staff, or whose stored permission array does not contain
    [manage_permissions], the request is answered 403 for every target and
    leaves the database as it was. *)
Theorem role_change_forbidden
        (jwt_verify : string -> option string) (db : Db.t)
        (authorization : option string) (actor : User.t)
        (userId : string) (role : option string) (permissions : Js.value) :
  Outcome.authenticates jwt_verify db authorization actor ->
  User.role actor <> "admin" ->
  ~ In (User.role actor) ["manager"; "staff"]
  \/ ~ Outcome.holds actor "manage_permissions" ->
  Outcome.Forbidden
    (fst (AdminRoutes.put_user_role jwt_verify authorization userId role
                                    permissions db))
  /\ snd (AdminRoutes.put_user_role jwt_verify authorization userId role
                                    permissions db) = db.
Proof.
  intros Hauth Hrole Hno. unfold AdminRoutes.put_user_role.
  rewrite (adminAuth_authenticated _ _ _ _ Hauth).
  destruct (existsb (String.eqb (User.role actor)) _) eqn:E;
    [|split; reflexivity].
  rewrite (requirePermission_non_admin actor _ Hrole).
  pose proof (holds_includes actor "manage_permissions") as Hh.
  destruct (match User.permissions actor with
            | Js.Arr items => Js.includes items "manage_permissions"
            | _ => false
            end); [|split; reflexivity].
  exfalso. destruct Hno as [Hno | Hno].
  - apply existsb_eqb_In in E. simpl in E, Hno. intuition congruence.
  - apply Hno. now apply Hh.
Qed.

Lemma role_change_forbidden_witness :
  Outcome.Forbidden
    (fst (AdminRoutes.put_user_role Examples.token_is_id (Some "Bearer s1")
            "c1" (Some "admin") Js.Undefined Examples.db_one))
  /\ snd (AdminRoutes.put_user_role Examples.token_is_id (Some "Bearer s1")
            "c1" (Some "admin") Js.Undefined Examples.db_one)
     = Examples.db_one.
Proof.
  apply (role_change_forbidden Examples.token_is_id Examples.db_one
           (Some "Bearer s1") Examples.staff_member).
  - exists "Bearer s1", "s1". repeat split. discriminate.
  - discriminate.
  - right. intros (items & Heq & Hin). injection Heq as <-.
    simpl in Hin. intuition discriminate.
Defined.

Lemma validationResult_admin (permissions : Js.value) :
  permissions = Js.Undefined \/ Js.isArray permissions = true ->
  AdminRoutes.validationResult (Some "admin") permissions = [].
Proof.
  intros [-> | H]; [reflexivity|].
  destruct permissions; try discriminate. reflexivity.
Qed.

(** The guard as written: an authenticated admin whose request names their
    own id in exactly the stored spelling is refused (status 400, nothing
    stored) for every new role other than admin, and is let through when the
    new role is admin. *)
Lemma self_demotion_refused_same_spelling
      (jwt_verify : string -> option string) (db : Db.t)
      (authorization : option string) (self : User.t)
      (permissions : Js.value) :
  Outcome.authenticates jwt_verify db authorization self ->
  User.role self = "admin" ->
  (forall r : string,
      r <> "admin" ->
      code (fst (AdminRoutes.put_user_role jwt_verify authorization
                   (User._id self) (Some r) permissions db)) = 400%nat
      /\ snd (AdminRoutes.put_user_role jwt_verify authorization
                (User._id self) (Some r) permissions db) = db)
  /\ (Js.ObjectId (User._id self) = User._id self ->
      permissions = Js.Undefined \/ Js.isArray permissions = true ->
      code (fst (AdminRoutes.put_user_role jwt_verify authorization
                   (User._id self) (Some "admin") permissions db)) = 200%nat
      /\ option_map User.role
           (Db.findUserById
              (snd (AdminRoutes.put_user_role jwt_verify authorization
                      (User._id self) (Some "admin") permissions db))
              (User._id self))
         = Some "admin").
Proof.
  intros Hauth Hadmin.
  assert (Db.findUserById db (User._id self) = Some self) as Hself.
  { destruct Hauth as (h & id & _ & _ & _ & Hf).
    now rewrite (findUserById_id _ _ _ Hf). }
  unfold AdminRoutes.put_user_role.
  rewrite (adminAuth_authenticated _ _ _ _ Hauth).
  replace (existsb (String.eqb (User.role self)) ["admin"; "manager"; "staff"])
    with true by (now rewrite Hadmin).
  rewrite (requirePermission_admin _ _ Hadmin).
  unfold AdminRoutes.update_role. split.
  - intros r Hr.
    destruct (negb (AdminRoutes.isEmpty
                      (AdminRoutes.validationResult (Some r) permissions)));
      [split; reflexivity|].
    rewrite String.eqb_refl, Hadmin. simpl.
    destruct (String.eqb_spec r "admin"); [contradiction|].
    split; reflexivity.
  - intros Hcanon Hp. rewrite (validationResult_admin _ Hp). simpl.
    rewrite Hadmin. simpl. rewrite andb_false_r. rewrite Hcanon, Hself.
    simpl. split; [reflexivity|].
    set (u' := User.set_role_permissions self "admin" _).
    change (User._id self) with (User._id u').
    rewrite (findUserById_saveUser db u' self Hself). reflexivity.
Qed.

(** C6 fails on the code.  The guard compares the path segment with the
    actor's id as strings, while the lookup that follows reads the segment
    as an ObjectId: the admin [a1], naming their own id as [A1], is not
    stopped by the guard, is found as the target, and is stored as a
    manager. *)
Lemma self_demotion_bypassed :
  Outcome.authenticates Examples.token_is_id Examples.db_one
                        (Some "Bearer a1") Examples.legacy_admin
  /\ User.role Examples.legacy_admin = "admin"
  /\ Js.ObjectId "A1" = User._id Examples.legacy_admin
  /\ code (fst (AdminRoutes.put_user_role Examples.token_is_id
                  (Some "Bearer a1") "A1" (Some "manager") Js.Undefined
                  Examples.db_one)) = 200%nat
  /\ option_map User.role
       (Db.findUserById
          (snd (AdminRoutes.put_user_role Examples.token_is_id
                  (Some "Bearer a1") "A1" (Some "manager") Js.Undefined
                  Examples.db_one))
          (User._id Examples.legacy_admin))
     = Some "manager".
Proof.
  repeat apply conj.
  - exists "Bearer a1", "a1". repeat split. discriminate.
  - reflexivity.
  - reflexivity.
  - reflexivity.
  - reflexivity.
Qed.

(** ** Saving a loaded record *)

Lemma findById_id (db : Db.t) (id : nat) (s : Subscription.t) :
  Db.findById db id = Some s ->
  In s (Db.subscriptions db) /\ Subscription._id s = id.
Proof.
  unfold Db.findById, Db.findOne. intro H.
  apply find_some in H as (Hin & E). apply Nat.eqb_eq in E. now split.
Qed.

Lemma find_replace_by_id (l : list Subscription.t) (s s' : Subscription.t) :
  In s l ->
  Subscription._id s' = Subscription._id s ->
  find (fun x => (Subscription._id x =? Subscription._id s)%nat)
       (map (fun x => if (Subscription._id x =? Subscription._id s)%nat
                      then s' else x) l)
  = Some s'.
Proof.
  intros Hin Hid. induction l as [|x l IH]; simpl; [contradiction|].
  destruct (Nat.eqb_spec (Subscription._id x) (Subscription._id s))
    as [E | E].
  - now rewrite Hid, Nat.eqb_refl.
  - destruct (Nat.eqb_spec (Subscription._id x) (Subscription._id s));
      [contradiction|].
    apply IH. destruct Hin as [-> | Hin]; [contradiction | assumption].
Qed.

Lemma findById_save (now : Z) (db : Db.t) (s : Subscription.t) :
  (exists s0, In s0 (Db.subscriptions db)
              /\ Subscription._id s0 = Subscription._id s) ->
  Db.findById (Db.save now db s) (Subscription._id s)
  = Some (Subscription.pre_save now s).
Proof.
  intros (s0 & Hin & Hid).
  unfold Db.findById, Db.findOne, Db.save, Db.with_subscriptions. simpl.
  rewrite <- Hid. apply find_replace_by_id; [assumption|].
  simpl. now rewrite Hid.
Qed.

Lemma filter_at_most_one {A : Type} (p : A -> bool) (l : list A) (a b : A) :
  (List.length (filter p l) <= 1)%nat ->
  In a l -> In b l -> p a = true -> p b = true -> a = b.
Proof.
  intros Hlen Ha Hb Hpa Hpb.
  assert (In a (filter p l)) as Ia by (apply filter_In; now split).
  assert (In b (filter p l)) as Ib by (apply filter_In; now split).
  destruct (filter p l) as [|x [|y r]]; simpl in *.
  - contradiction.
  - destruct Ia as [<- | []], Ib as [<- | []]. reflexivity.
  - lia.
Qed.

(** ** Cancelling *)

(** C7, as stated, fails: after two subscriptions (the first one past its
    end date but never swept) both records are stored as active, and the
    second consecutive cancel finds the other one instead of answering 404. *)
Lemma second_cancel_succeeds :
  Outcome.Success
    (fst (SubscriptionRoutes.cancel (32 * Examples.day) "c1" Examples.db_two))
  /\ ~ Outcome.NotFound
       (fst (SubscriptionRoutes.cancel (32 * Examples.day) "c1"
               (snd (SubscriptionRoutes.cancel (32 * Examples.day) "c1"
                       Examples.db_two))))
  /\ snd (SubscriptionRoutes.cancel (32 * Examples.day) "c1"
            (snd (SubscriptionRoutes.cancel (32 * Examples.day) "c1"
                    Examples.db_two)))
     <> snd (SubscriptionRoutes.cancel (32 * Examples.day) "c1"
               Examples.db_two).
Proof.
  repeat apply conj.
  - left. reflexivity.
  - vm_compute. discriminate.
  - vm_compute. discriminate.
Qed.

(** C7, amended.  When the principal has a record stored as active, [cancel]
    answers 200 and saves that record once, with status cancelled and
    auto-renew off; when there is none it answers 404 and changes nothing;
    and a second consecutive cancel answers 404 and changes nothing provided
    the principal had at most one record stored as active before the first
    call. *)
Theorem cancel_outcomes (now : Z) (uid : string) (db : Db.t) :
  (forall s,
      Db.findOne db (SubscriptionRoutes.stored_active uid) = Some s ->
      exists s',
        s' = Subscription.pre_save now
               (Subscription.set_autoRenew
                  (Subscription.set_status s "cancelled") false)
        /\ Subscription.status s' = "cancelled"
        /\ Subscription.autoRenew s' = false
        /\ SubscriptionRoutes.cancel now uid db
           = (mk 200 (MessageSubscription
                        "Subscription cancelled successfully" s'),
              Db.save now db
                (Subscription.set_autoRenew
                   (Subscription.set_status s "cancelled") false))
        /\ Db.findById (snd (SubscriptionRoutes.cancel now uid db))
                       (Subscription._id s) = Some s')
  /\ ((forall s, In s (Db.subscriptions db) ->
                 SubscriptionRoutes.stored_active uid s = false) ->
      SubscriptionRoutes.cancel now uid db
      = (status 404 "No active subscription found", db))
  /\ ((List.length (filter (SubscriptionRoutes.stored_active uid)
                           (Db.subscriptions db)) <= 1)%nat ->
      forall now',
        SubscriptionRoutes.cancel now' uid
          (snd (SubscriptionRoutes.cancel now uid db))
        = (status 404 "No active subscription found",
           snd (SubscriptionRoutes.cancel now uid db))).
Proof.
  assert (forall d : Db.t,
             (forall s, In s (Db.subscriptions d) ->
                        SubscriptionRoutes.stored_active uid s = false) ->
             forall t, SubscriptionRoutes.cancel t uid d
                       = (status 404 "No active subscription found", d))
    as Hnone.
  { intros d H t. unfold SubscriptionRoutes.cancel, Db.findOne.
    apply find_none_iff in H. now rewrite H. }
  split; [|split].
  - intros s Hs. eexists. split; [reflexivity|].
    unfold SubscriptionRoutes.cancel. rewrite Hs. simpl.
    repeat split.
    apply find_some in Hs as (Hin & _).
    apply (findById_save now db
             (Subscription.set_autoRenew
                (Subscription.set_status s "cancelled") false)).
    exists s. now split.
  - intro H. now apply Hnone.
  - intros Hone now'. apply Hnone.
    unfold SubscriptionRoutes.cancel, Db.findOne.
    destruct (find (SubscriptionRoutes.stored_active uid)
                   (Db.subscriptions db)) as [s|] eqn:E; simpl.
    + apply find_some in E as (Hin & Hact).
      intros x Hx. apply in_map_iff in Hx as (y & <- & Hy).
      destruct (Nat.eqb_spec (Subscription._id y) (Subscription._id s))
        as [Hid | Hid].
      * unfold SubscriptionRoutes.stored_active. simpl. apply andb_false_r.
      * destruct (SubscriptionRoutes.stored_active uid y) eqn:Hy'; auto.
        exfalso. apply Hid. f_equal.
        now apply (filter_at_most_one _ _ y s Hone).
    + now apply find_none_iff.
Qed.

Lemma cancel_outcomes_witness :
  SubscriptionRoutes.cancel (2 * Examples.day) "c1"
    (snd (SubscriptionRoutes.cancel Examples.day "c1" Examples.db_one))
  = (status 404 "No active subscription found",
     snd (SubscriptionRoutes.cancel Examples.day "c1" Examples.db_one)).
Proof.
  apply (proj2 (proj2 (cancel_outcomes Examples.day "c1" Examples.db_one))).
  simpl. lia.
Defined.

(** ** Extending *)

Lemma newDate_valid (t : Z) : Js.valid_time t -> Js.newDate t = Some t.
Proof.
  unfold Js.valid_time, Js.newDate. intros (Hlo & Hhi).
  apply Z.leb_le in Hlo, Hhi. now rewrite Hlo, Hhi.
Qed.

Lemma newDate_invalid (t : Z) : ~ Js.valid_time t -> Js.newDate t = None.
Proof.
  unfold Js.valid_time, Js.newDate. intro Hno.
  destruct (Z.leb_spec (- Js.MAX_TIME) t) as [Hlo | Hlo];
    destruct (Z.leb_spec t Js.MAX_TIME) as [Hhi | Hhi];
    simpl; try reflexivity.
  exfalso. apply Hno. now split.
Qed.

Lemma newDate_some (t v : Z) :
  Js.newDate t = Some v -> v = t /\ Js.valid_time t.
Proof.
  unfold Js.valid_time, Js.newDate.
  destruct (Z.leb_spec (- Js.MAX_TIME) t) as [Hlo | Hlo];
    destruct (Z.leb_spec t Js.MAX_TIME) as [Hhi | Hhi];
    simpl; try discriminate.
  intro Hv. injection Hv as <-. now repeat split.
Qed.

Lemma extend_in_range (now : Z) (id : nat) (d : Z) (db : Db.t)
      (s : Subscription.t) :
  d > 0 ->
  Db.findById db id = Some s ->
  Js.valid_time (Subscription.endDate s + d * AdminSubscriptions.MS_PER_DAY) ->
  AdminSubscriptions.extend now id (Some d) db
  = (mk 200 (MessageSubscription
               ("Subscription extended by "
                  ++ NilZero.string_of_int (Z.to_int d) ++ " days")
               (Subscription.pre_save now
                  (Subscription.set_endDate s
                     (Subscription.endDate s
                      + d * AdminSubscriptions.MS_PER_DAY)))),
     Db.save now db
       (Subscription.set_endDate s
          (Subscription.endDate s + d * AdminSubscriptions.MS_PER_DAY))).
Proof.
  intros Hd Hs Hv. unfold AdminSubscriptions.extend. cbn [Js.truthy].
  destruct (Z.eqb_spec d 0); [lia|].
  destruct (Z.leb_spec d 0); [lia|]. cbn [negb orb].
  now rewrite Hs, (newDate_valid _ Hv).
Qed.

Lemma extend_out_of_range (now : Z) (id : nat) (d : Z) (db : Db.t)
      (s : Subscription.t) :
  d > 0 ->
  Db.findById db id = Some s ->
  ~ Js.valid_time
      (Subscription.endDate s + d * AdminSubscriptions.MS_PER_DAY) ->
  AdminSubscriptions.extend now id (Some d) db
  = (status 500 "Server error", db).
Proof.
  intros Hd Hs Hv. unfold AdminSubscriptions.extend. cbn [Js.truthy].
  destruct (Z.eqb_spec d 0); [lia|].
  destruct (Z.leb_spec d 0); [lia|]. cbn [negb orb].
  now rewrite Hs, (newDate_invalid _ Hv).
Qed.

(** C8, as stated, fails: [extend] saves the record, and the pre-save hook
    stamps [updatedAt], so a second field changes besides [endDate].  And not
    every [d > 0] is accepted: an extension that would move the end date
    past the largest [Date] (here by 99,999,971 days from day 30) is
    answered 500 and stores nothing. *)
Lemma extend_touches_updatedAt :
  (exists s,
      Db.findById Examples.db_one 0 = Some s
      /\ Db.findById
           (snd (AdminSubscriptions.extend Examples.day 0 (Some 10)
                   Examples.db_one)) 0
         <> Some (Subscription.set_endDate s
                    (Subscription.endDate s
                     + 10 * AdminSubscriptions.MS_PER_DAY))
      /\ Subscription.updatedAt s = 0
      /\ option_map Subscription.updatedAt
           (Db.findById
              (snd (AdminSubscriptions.extend Examples.day 0 (Some 10)
                      Examples.db_one)) 0)
         = Some Examples.day)
  /\ AdminSubscriptions.extend Examples.day 0 (Some 99999971) Examples.db_one
     = (status 500 "Server error", Examples.db_one).
Proof.
  split.
  - eexists. split; [reflexivity|]. repeat apply conj.
    + vm_compute. discriminate.
    + reflexivity.
    + reflexivity.
  - reflexivity.
Qed.

(** C8, amended.  For every stored subscription, whose end date is a valid
    time, and every number of days [d > 0], whatever the record's status:
    when the end date moved forward by [d] days is still a valid [Date],
    [extend] answers 200 and the stored record afterwards has [endDate]
    moved forward by exactly [d] days and [updatedAt] set to the time of the
    request by the pre-save hook, every other field, the status in
    particular, being as before; when it is not, [extend] answers 500 and
    stores nothing. *)
Theorem extend_adds_days
        (now : Z) (id : nat) (d : Z) (db : Db.t) (s : Subscription.t) :
  d > 0 ->
  Db.findById db id = Some s ->
  Js.valid_time (Subscription.endDate s) ->
  (Subscription.endDate s + d * AdminSubscriptions.MS_PER_DAY <= Js.MAX_TIME ->
   exists s',
     code (fst (AdminSubscriptions.extend now id (Some d) db)) = 200%nat
     /\ Db.findById (snd (AdminSubscriptions.extend now id (Some d) db)) id
        = Some s'
     /\ Subscription.endDate s'
        = Subscription.endDate s + d * AdminSubscriptions.MS_PER_DAY
     /\ Subscription.updatedAt s' = now
     /\ Subscription.status s' = Subscription.status s
     /\ s' = Subscription.mk
               (Subscription._id s) (Subscription.user s)
               (Subscription.plan s)
               (Subscription.planName s) (Subscription.price s)
               (Subscription.features s) (Subscription.status s)
               (Subscription.startDate s)
               (Subscription.endDate s + d * AdminSubscriptions.MS_PER_DAY)
               (Subscription.paymentId s) (Subscription.autoRenew s)
               (Subscription.createdAt s) now)
  /\ (Js.MAX_TIME < Subscription.endDate s + d * AdminSubscriptions.MS_PER_DAY
      -> AdminSubscriptions.extend now id (Some d) db
         = (status 500 "Server error", db)).
Proof.
  intros Hd Hs (Hlo & Hhi). split; intro Hnew.
  - rewrite (extend_in_range now id d db s Hd Hs).
    + eexists. cbn [fst snd code]. split; [reflexivity|].
      apply findById_id in Hs as (Hin & <-).
      split.
      * apply (findById_save now db
                 (Subscription.set_endDate s
                    (Subscription.endDate s
                     + d * AdminSubscriptions.MS_PER_DAY))).
        exists s. now split.
      * repeat split.
    + unfold Js.valid_time, AdminSubscriptions.MS_PER_DAY in *. lia.
  - apply (extend_out_of_range now id d db s Hd Hs).
    unfold Js.valid_time. lia.
Qed.

Lemma extend_adds_days_witness :
  exists s',
    code (fst (AdminSubscriptions.extend Examples.day 0 (Some 10)
                 Examples.db_one)) = 200%nat
    /\ Db.findById (snd (AdminSubscriptions.extend Examples.day 0 (Some 10)
                          Examples.db_one)) 0
       = Some s'
    /\ Subscription.endDate s' = 30 * Examples.day + 10 * Examples.day
    /\ Subscription.updatedAt s' = Examples.day
    /\ Subscription.status s' = "active".
Proof.
  destruct (proj1
              (extend_adds_days Examples.day 0 10 Examples.db_one
                 (SubscriptionRoutes.new_subscription
                    0 "c1" "standard"
                    (Subscription.mkPlan "Standard Plan" 299 30
                       ["Access to PDF books"; "Priority customer support";
                        "Mobile app access"; "Offline reading";
                        "Bookmarks & notes"]
                       "Great for regular readers")
                    (Some "pay_1") 0)
                 eq_refl eq_refl
                 ltac:(split; vm_compute; discriminate))
              ltac:(vm_compute; discriminate))
    as (s' & H1 & H2 & H3 & H4 & H5 & _).
  exists s'. repeat split; assumption.
Defined.

(** ** The lifecycle as a transition system *)

(** Run without interruption, the two parts of [POST /subscribe] are the
    handler. *)
Lemma subscribe_in_two_parts (now : Z) (uid : string) (plan : Js.value)
      (paymentId : option string) (db : Db.t) :
  SubscriptionRoutes.subscribe now uid plan paymentId db
  = match Overlap.subscribe_check now uid plan paymentId db with
    | Overlap.Answered r => (r, db)
    | Overlap.ToSave doc => Overlap.subscribe_save now doc db
    end.
Proof.
  unfold SubscriptionRoutes.subscribe, Overlap.subscribe_check,
    Overlap.subscribe_save.
  destruct (negb (Js.truthy plan) || _); [reflexivity|].
  destruct plan; try reflexivity.
  destruct (Subscription.plan_at _ s); [|reflexivity].
  now destruct (Db.findOne db _).
Qed.

Lemma filter_map_length_le {A : Type} (p : A -> bool) (f : A -> A)
      (l : list A) :
  (forall x, In x l -> p (f x) = true -> p x = true) ->
  (List.length (filter p (map f l)) <= List.length (filter p l))%nat.
Proof.
  induction l as [|a l IH]; simpl; intro H; [lia|].
  assert (List.length (filter p (map f l)) <= List.length (filter p l))%nat
    as IH' by (apply IH; intros x Hx; apply H; now right).
  destruct (p (f a)) eqn:Ef.
  - rewrite (H a (or_introl eq_refl) Ef). simpl. lia.
  - destruct (p a); simpl; lia.
Qed.

Lemma filter_weaken_length_le {A : Type} (p p' : A -> bool) (l : list A) :
  (forall x, In x l -> p' x = true -> p x = true) ->
  (List.length (filter p' l) <= List.length (filter p l))%nat.
Proof.
  induction l as [|a l IH]; simpl; intro H; [lia|].
  assert (List.length (filter p' l) <= List.length (filter p l))%nat
    as IH' by (apply IH; intros x Hx; apply H; now right).
  destruct (p' a) eqn:Ef.
  - rewrite (H a (or_introl eq_refl) Ef). simpl. lia.
  - destruct (p a); simpl; lia.
Qed.

Lemma filter_filter_length_le {A : Type} (p q : A -> bool) (l : list A) :
  (List.length (filter p (filter q l)) <= List.length (filter p l))%nat.
Proof.
  induction l as [|a l IH]; simpl; [lia|].
  destruct (q a); simpl; destruct (p a); simpl; lia.
Qed.

Lemma NoDup_map_filter {A B : Type} (g : A -> B) (q : A -> bool)
      (l : list A) :
  NoDup (map g l) -> NoDup (map g (filter q l)).
Proof.
  induction l as [|a l IH]; simpl; intro H; [assumption|].
  inversion H as [|? ? Hnotin Hnd]; subst.
  destruct (q a); simpl; [|now apply IH].
  constructor; [|now apply IH].
  intro Hin. apply Hnotin. apply in_map_iff in Hin as (x & Hx & Hf).
  apply filter_In in Hf as (Hf & _). apply in_map_iff. eauto.
Qed.

Lemma unique_id_determines (l : list Subscription.t)
      (a b : Subscription.t) :
  NoDup (map Subscription._id l) -> In a l -> In b l ->
  Subscription._id a = Subscription._id b -> a = b.
Proof.
  induction l as [|x l IH]; simpl; intros Hnd Ha Hb Hid; [contradiction|].
  inversion Hnd as [|? ? Hnotin Hnd']; subst.
  destruct Ha as [-> | Ha], Hb as [-> | Hb].
  - reflexivity.
  - exfalso. apply Hnotin. rewrite Hid. now apply in_map.
  - exfalso. apply Hnotin. rewrite <- Hid. now apply in_map.
  - now apply IH.
Qed.

(** Every request leaves the collection as it was, appends the record built
    by [subscribe], rewrites records in place, or removes records. *)
Lemma run_shape (now : Z) (o : Lifecycle.op) (db : Db.t) :
  snd (Lifecycle.run now o db) = db
  \/ (exists uid key p paymentId,
         Subscription.plan_at Subscription.getPlans key = Some p
         /\ (forall s, In s (Db.subscriptions db) ->
                       SubscriptionRoutes.active_unexpired uid now s = false)
         /\ snd (Lifecycle.run now o db)
            = Db.mk (Db.users db)
                    (Db.subscriptions db
                       ++ [SubscriptionRoutes.new_subscription
                             now uid key p paymentId (Db.next_id db)])
                    (S (Db.next_id db)))
  \/ (exists f,
         snd (Lifecycle.run now o db)
         = Db.with_subscriptions db (map f (Db.subscriptions db))
         /\ forall x, In x (Db.subscriptions db) ->
                      f x = x
                      \/ exists s, In s (Db.subscriptions db)
                                   /\ Subscription._id s = Subscription._id x
                                   /\ Lifecycle.rewrites o s (f x))
  \/ (exists q,
         snd (Lifecycle.run now o db)
         = Db.with_subscriptions db (filter q (Db.subscriptions db))).
Proof.
  destruct o as [uid plan pid | uid | uid flag | id days | id st | id
                | action ids]; simpl.
  - (* subscribe *)
    destruct (Js.lits_include ["basic"; "standard"; "premium"] plan) eqn:E.
    + apply lits_include_spec in E as (key & -> & Hin).
      destruct (subscribe_valid now uid key pid db Hin) as (p & Hp & ->).
      unfold Db.findOne.
      destruct (find _ (Db.subscriptions db)) eqn:F; [now left|].
      right; left. exists uid, key, p, pid.
      split; [assumption|]. split; [|reflexivity].
      now apply find_none_iff.
    + rewrite (subscribe_invalid _ _ _ _ _ E). now left.
  - (* cancel *)
    unfold SubscriptionRoutes.cancel, Db.findOne.
    destruct (find _ (Db.subscriptions db)) as [s|] eqn:F; [|now left].
    apply find_some in F as (Hin & _).
    right; right; left. eexists. split; [reflexivity|].
    intros x _. simpl.
    destruct (Nat.eqb_spec (Subscription._id x) (Subscription._id s));
      [right | now left].
    exists s. repeat split; auto. intros _. right. discriminate.
  - (* auto-renew *)
    unfold SubscriptionRoutes.auto_renew, Db.findOne.
    destruct (find _ (Db.subscriptions db)) as [s|] eqn:F; [|now left].
    apply find_some in F as (Hin & _).
    right; right; left. eexists. split; [reflexivity|].
    intros x _. simpl.
    destruct (Nat.eqb_spec (Subscription._id x) (Subscription._id s));
      [right | now left].
    exists s. repeat split; auto.
  - (* extend *)
    unfold AdminSubscriptions.extend.
    destruct days as [d|]; [|now left].
    destruct (negb (Js.truthy (Js.Num d)) || (d <=? 0)); [now left|].
    destruct (Db.findById db id) as [s|] eqn:F; [|now left].
    apply findById_id in F as (Hin & _).
    destruct (Js.newDate _) as [endDate|]; [|now left].
    right; right; left. eexists. split; [reflexivity|].
    intros x _. simpl.
    destruct (Nat.eqb_spec (Subscription._id x) (Subscription._id s));
      [right | now left].
    exists s. repeat split; auto; discriminate.
  - (* status *)
    unfold AdminSubscriptions.set_status.
    destruct (Js.lits_include _ st) eqn:E; simpl; [|now left].
    apply lits_include_spec in E as (k & -> & _).
    destruct (Db.findById db id) as [s|] eqn:F; [|now left].
    apply findById_id in F as (Hin & _).
    right; right; left. eexists. split; [reflexivity|].
    intros x _. simpl.
    destruct (Nat.eqb_spec (Subscription._id x) (Subscription._id s));
      [right | now left].
    exists s. repeat split; auto. simpl. intro Hk. right.
    intros ->. discriminate.
  - (* delete *)
    unfold AdminSubscriptions.delete.
    destruct (Db.findById db id); [|now left].
    right; right; right. eexists. reflexivity.
  - (* bulk *)
    unfold AdminSubscriptions.bulk.
    destruct ids as [ids|]; [|now left].
    destruct (negb (Js.truthy action)); [now left|].
    destruct (Js.is_str "cancel" action) eqn:Ec;
      [|destruct (Js.is_str "activate" action) eqn:Ea;
        [|destruct (Js.is_str "delete" action); [|now left]]].
    + right; right; left. eexists. split; [reflexivity|].
      intros x Hx. simpl.
      destruct (existsb _ ids); [right | now left].
      exists x. repeat split; auto. intros _. right. discriminate.
    + right; right; left. eexists. split; [reflexivity|].
      intros x Hx. simpl.
      destruct (existsb _ ids); [right | now left].
      exists x. repeat split; auto. simpl. rewrite Ea. discriminate.
    + right; right; right. eexists. reflexivity.
Qed.

Lemma run_unique_ids (now : Z) (o : Lifecycle.op) (db : Db.t) :
  Lifecycle.unique_ids db -> Lifecycle.unique_ids (snd (Lifecycle.run now o db)).
Proof.
  intros (Hnd & Hlt).
  destruct (run_shape now o db)
    as [-> | [(uid & key & p & pid & _ & _ & ->)
             | [(f & -> & Hf) | (q & ->)]]];
    unfold Lifecycle.unique_ids; simpl.
  - now split.
  - split.
    + rewrite map_app. simpl. apply NoDup_app.
      * assumption.
      * constructor; [intros [] | constructor].
      * intros a Ha [<- | []].
        apply in_map_iff in Ha as (x & Hx & Hin).
        rewrite Forall_forall in Hlt. specialize (Hlt x Hin). simpl in *. lia.
    + apply Forall_app. split.
      * eapply Forall_impl; [|exact Hlt]. simpl. intros; lia.
      * constructor; [simpl; lia | constructor].
  - assert (forall x, In x (Db.subscriptions db) ->
                      Subscription._id (f x) = Subscription._id x) as Hid.
    { intros x Hx. destruct (Hf x Hx) as [-> | (s & _ & Hs & Hr & _)];
        [reflexivity | congruence]. }
    split.
    + rewrite map_map. erewrite map_ext_in; [exact Hnd|]. exact Hid.
    + rewrite Forall_forall in *. intros y Hy.
      apply in_map_iff in Hy as (x & <- & Hx). rewrite (Hid x Hx). auto.
  - split.
    + now apply NoDup_map_filter.
    + rewrite Forall_forall in *. intros y Hy.
      apply filter_In in Hy as (Hy & _). auto.
Qed.

Lemma run_dates_match_plan (now : Z) (o : Lifecycle.op) (db : Db.t) :
  Lifecycle.is_extend o = false ->
  (forall s, In s (Db.subscriptions db) -> Lifecycle.dates_match_plan s) ->
  forall s, In s (Db.subscriptions (snd (Lifecycle.run now o db))) ->
            Lifecycle.dates_match_plan s.
Proof.
  intros Ho Hinv.
  destruct (run_shape now o db)
    as [-> | [(uid & key & p & pid & Hp & _ & ->)
             | [(f & -> & Hf) | (q & ->)]]];
    simpl; intros s Hs.
  - auto.
  - apply in_app_or in Hs as [Hs | [<- | []]]; [auto|].
    exists p. split; [exact Hp | reflexivity].
  - apply in_map_iff in Hs as (x & <- & Hx).
    destruct (Hf x Hx) as [-> | (s0 & Hs0 & _ & Hr)]; [auto|].
    destruct Hr as (_ & _ & Hplan & Hstart & Hend & _).
    destruct (Hinv s0 Hs0) as (p & Hp & He). exists p.
    rewrite Hplan, Hstart, (Hend Ho). now split.
  - apply filter_In in Hs as (Hs & _). auto.
Qed.

Lemma at_most_one_active_later (t t' : Z) (db : Db.t) :
  t <= t' ->
  Lifecycle.at_most_one_active t db -> Lifecycle.at_most_one_active t' db.
Proof.
  intros Ht H uid. specialize (H uid).
  eapply Nat.le_trans; [|exact H].
  apply filter_weaken_length_le. intros x _ Hx.
  apply active_unexpired_true in Hx as (Hu & Hs & Hlt).
  apply active_unexpired_true. repeat split; auto; lia.
Qed.

Lemma run_at_most_one_active (now : Z) (o : Lifecycle.op) (db : Db.t) :
  Lifecycle.revives o = false ->
  Lifecycle.unique_ids db ->
  Lifecycle.at_most_one_active now db ->
  Lifecycle.at_most_one_active now (snd (Lifecycle.run now o db)).
Proof.
  intros Ho (Hnd & _) Hinv.
  assert (Lifecycle.is_extend o = false) as Hne
      by (destruct o; try reflexivity; discriminate).
  destruct (run_shape now o db)
    as [-> | [(uid & key & p & pid & _ & Hnone & ->)
             | [(f & -> & Hf) | (q & ->)]]];
    intro uid'; simpl.
  - apply Hinv.
  - rewrite filter_app, length_app. simpl.
    destruct (String.eqb_spec uid uid') as [<- | Hne'].
    + replace (filter (SubscriptionRoutes.active_unexpired uid now)
                      (Db.subscriptions db)) with (@nil Subscription.t).
      * destruct (SubscriptionRoutes.active_unexpired uid now _); simpl; lia.
      * symmetry. clear - Hnone.
        induction (Db.subscriptions db) as [|a l IH]; simpl; [reflexivity|].
        rewrite (Hnone a (or_introl eq_refl)). apply IH.
        intros s Hs. apply Hnone. now right.
    + replace (SubscriptionRoutes.active_unexpired uid' now
                 (SubscriptionRoutes.new_subscription now uid key p pid
                                                      (Db.next_id db)))
        with false.
      * specialize (Hinv uid'). simpl. lia.
      * unfold SubscriptionRoutes.active_unexpired. simpl.
        destruct (String.eqb_spec uid uid'); [contradiction | reflexivity].
  - eapply Nat.le_trans; [|exact (Hinv uid')].
    apply filter_map_length_le. intros x Hx Hact.
    destruct (Hf x Hx) as [<- | (s & Hs & Hid & Hr)]; [assumption|].
    assert (s = x) as -> by now apply (unique_id_determines _ _ _ Hnd).
    destruct Hr as (_ & Huser & _ & _ & Hend & Hst).
    apply active_unexpired_true in Hact as (Hu & Hs' & Hlt).
    apply active_unexpired_true.
    rewrite (Hend Hne) in Hlt. rewrite Huser in Hu.
    destruct (Hst Ho) as [E | E]; [|contradiction].
    rewrite E in Hs'. now repeat split.
  - eapply Nat.le_trans; [|exact (Hinv uid')].
    apply filter_filter_length_le.
Qed.

Lemma reachable_unique_ids (allowed : Lifecycle.op -> bool) (t : Z)
      (db : Db.t) :
  Lifecycle.reachable allowed t db -> Lifecycle.unique_ids db.
Proof.
  induction 1 as [t0 us | t t' db o _ IH _ _].
  - split; constructor.
  - now apply run_unique_ids.
Qed.

Lemma reachable_db_resubscribed :
  Lifecycle.reachable Lifecycle.any_op (2 * Examples.day)
                      Examples.db_resubscribed.
Proof.
  apply (Lifecycle.reach_step Lifecycle.any_op Examples.day
           (2 * Examples.day) Examples.db_cancelled
           (Lifecycle.Subscribe "c1" (Js.Str "premium") (Some "pay_3")));
    [|vm_compute; discriminate|reflexivity].
  apply (Lifecycle.reach_step Lifecycle.any_op 0 Examples.day
           Examples.db_one (Lifecycle.Cancel "c1"));
    [|vm_compute; discriminate|reflexivity].
  apply (Lifecycle.reach_step Lifecycle.any_op 0 0
           (Db.empty Examples.people)
           (Lifecycle.Subscribe "c1" (Js.Str "standard") (Some "pay_1")));
    [|lia|reflexivity].
  apply Lifecycle.reach_init.
Qed.

(** C3, as stated, fails.  After subscribe (day 0), subscribe again (day 31)
    and an admin extension of the first record by ten days, the first record
    ends 40 days after its start, and both records of the principal are
    stored active and unexpired.  Setting a cancelled record back to active,
    by [setStatus] or by the bulk activate action, after the principal has
    subscribed again also leaves two records stored active and unexpired.
    And with no such request at all: two [subscribe] requests of one
    principal that overlap, both looking up before either saves, both pass
    the check and leave two records stored active and unexpired. *)
Lemma extension_breaks_invariants :
  (Lifecycle.reachable Lifecycle.any_op (31 * Examples.day) Examples.db_three
   /\ ~ (forall s, In s (Db.subscriptions Examples.db_three) ->
                   Lifecycle.dates_match_plan s)
   /\ ~ Lifecycle.at_most_one_active (31 * Examples.day) Examples.db_three)
  /\ (Lifecycle.reachable Lifecycle.any_op (3 * Examples.day)
                          Examples.db_forced
      /\ ~ Lifecycle.at_most_one_active (3 * Examples.day) Examples.db_forced)
  /\ (Lifecycle.reachable Lifecycle.any_op (3 * Examples.day)
                          Examples.db_bulk
      /\ ~ Lifecycle.at_most_one_active (3 * Examples.day) Examples.db_bulk)
  /\ (exists first second,
         Overlap.subscribe_check 0 "c1" (Js.Str "basic") (Some "pay_a")
                                 (Db.empty Examples.people)
         = Overlap.ToSave first
         /\ Overlap.subscribe_check 0 "c1" (Js.Str "premium") (Some "pay_b")
                                    (Db.empty Examples.people)
            = Overlap.ToSave second
         /\ ~ Lifecycle.at_most_one_active 0
               (snd (Overlap.subscribe_save 0 second
                       (snd (Overlap.subscribe_save 0 first
                               (Db.empty Examples.people)))))).
Proof.
  repeat apply conj.
  - apply (Lifecycle.reach_step Lifecycle.any_op (31 * Examples.day)
             (31 * Examples.day) Examples.db_two
             (Lifecycle.Extend 0 (Some 10))); [|lia|reflexivity].
    apply (Lifecycle.reach_step Lifecycle.any_op 0
             (31 * Examples.day) Examples.db_one
             (Lifecycle.Subscribe "c1" (Js.Str "basic") (Some "pay_2")));
      [|vm_compute; discriminate|reflexivity].
    apply (Lifecycle.reach_step Lifecycle.any_op 0 0
             (Db.empty Examples.people)
             (Lifecycle.Subscribe "c1" (Js.Str "standard") (Some "pay_1")));
      [|lia|reflexivity].
    apply Lifecycle.reach_init.
  - intro H.
    destruct (H _ (or_introl eq_refl)) as (p & Hp & He).
    vm_compute in Hp. injection Hp as <-. vm_compute in He. discriminate.
  - intro H. specialize (H "c1"). vm_compute in H.
    apply Nat.nle_succ_diag_l in H. exact H.
  - apply (Lifecycle.reach_step Lifecycle.any_op (2 * Examples.day)
             (3 * Examples.day) Examples.db_resubscribed
             (Lifecycle.SetStatus 0 (Js.Str "active")));
      [exact reachable_db_resubscribed|vm_compute; discriminate|reflexivity].
  - intro H. specialize (H "c1"). vm_compute in H.
    apply Nat.nle_succ_diag_l in H. exact H.
  - apply (Lifecycle.reach_step Lifecycle.any_op (2 * Examples.day)
             (3 * Examples.day) Examples.db_resubscribed
             (Lifecycle.Bulk (Js.Str "activate") (Some [0%nat])));
      [exact reachable_db_resubscribed|vm_compute; discriminate|reflexivity].
  - intro H. specialize (H "c1"). vm_compute in H.
    apply Nat.nle_succ_diag_l in H. exact H.
  - eexists. eexists. split; [reflexivity|]. split; [reflexivity|].
    intro H. specialize (H "c1"). vm_compute in H.
    apply Nat.nle_succ_diag_l in H. exact H.
Qed.

(** C3, amended.  When requests are handled one at a time, each handler
    running to its end before the next one starts: in every state reachable
    through the operations other than [extend], every subscription satisfies
    endDate = startDate + plan.duration days; and in every state reachable
    through the operations that do not revive a record (everything except
    [extend], [setStatus] to active and the bulk activate action), at most
    one subscription per principal is stored active with an end date after
    the current time. *)
Theorem lifecycle_invariants :
  (forall t db,
      Lifecycle.reachable (fun o => negb (Lifecycle.is_extend o)) t db ->
      forall s, In s (Db.subscriptions db) -> Lifecycle.dates_match_plan s)
  /\ (forall t db,
         Lifecycle.reachable (fun o => negb (Lifecycle.revives o)) t db ->
         Lifecycle.at_most_one_active t db).
Proof.
  split.
  - induction 1 as [t0 us | t t' db o _ IH _ Ho].
    + intros s [].
    + apply run_dates_match_plan; [|exact IH].
      now apply negb_true_iff in Ho.
  - induction 1 as [t0 us | t t' db o Hreach IH Ht Ho].
    + intro uid. simpl. lia.
    + apply run_at_most_one_active.
      * now apply negb_true_iff in Ho.
      * exact (reachable_unique_ids _ _ _ Hreach).
      * exact (at_most_one_active_later _ _ _ Ht IH).
Qed.

Lemma lifecycle_invariants_witness :
  Lifecycle.at_most_one_active (31 * Examples.day) Examples.db_two.
Proof.
  apply (proj2 lifecycle_invariants).
  apply (Lifecycle.reach_step _ 0 (31 * Examples.day) Examples.db_one
           (Lifecycle.Subscribe "c1" (Js.Str "basic") (Some "pay_2")));
    [|vm_compute; discriminate|reflexivity].
  apply (Lifecycle.reach_step _ 0 0 (Db.empty Examples.people)
           (Lifecycle.Subscribe "c1" (Js.Str "standard") (Some "pay_1")));
    [|lia|reflexivity].
  apply Lifecycle.reach_init.
Defined.

(** * Further properties of the code *)

(** ** [adminAuth] *)

Lemma adminAuth_send_cases (jwt_verify : string -> option string)
      (db : Db.t) (authorization : option string) :
  (exists u, AdminAuth.adminAuth jwt_verify db authorization = Next u
             /\ Outcome.authenticates jwt_verify db authorization u
             /\ In (User.role u) ["admin"; "manager"; "staff"])
  \/ (exists u, AdminAuth.adminAuth jwt_verify db authorization
                = Send (status 403 "Access denied. Admin role required.")
                /\ Outcome.authenticates jwt_verify db authorization u
                /\ ~ In (User.role u) ["admin"; "manager"; "staff"])
  \/ (exists m, AdminAuth.adminAuth jwt_verify db authorization
                = Send (status 401 m)
                /\ forall u,
                    ~ Outcome.authenticates jwt_verify db authorization u).
Proof.
  unfold AdminAuth.adminAuth, Outcome.authenticates.
  destruct authorization as [header|]; cbn [option_map].
  - destruct (String.eqb_spec (Js.replace "Bearer " "" header) "")
      as [E | E].
    + right; right. eexists. split; [reflexivity|].
      intros u (h & id & Hh & Hne & _). injection Hh as <-. contradiction.
    + destruct (jwt_verify (Js.replace "Bearer " "" header)) as [userId|]
        eqn:Hv.
      * destruct (Db.findUserById db userId) as [user|] eqn:Hf.
        -- destruct (existsb (String.eqb (User.role user)) _) eqn:Hr;
             cbn [negb].
           ++ left. exists user. split; [reflexivity|].
              split; [exists header, userId; auto|].
              now apply existsb_eqb_In.
           ++ right; left. exists user. split; [reflexivity|].
              split; [exists header, userId; auto|].
              intro Hin. apply existsb_eqb_In in Hin. congruence.
        -- right; right. eexists. split; [reflexivity|].
           intros u (h & id & Hh & _ & Hv' & Hf'). injection Hh as <-.
           congruence.
      * right; right. eexists. split; [reflexivity|].
        intros u (h & id & Hh & _ & Hv' & _). injection Hh as <-.
        congruence.
  - right; right. eexists. split; [reflexivity|].
    intros u (h & id & Hh & _). discriminate.
Qed.

(** X1.  [adminAuth] calls [next()] with user [u] exactly when the request's
    token verifies, resolves to the stored user [u], and [u] has one of the
    roles admin, manager, staff. *)
Theorem adminAuth_next_iff (jwt_verify : string -> option string)
        (db : Db.t) (authorization : option string) (u : User.t) :
  AdminAuth.adminAuth jwt_verify db authorization = Next u
  <-> Outcome.authenticates jwt_verify db authorization u
      /\ In (User.role u) ["admin"; "manager"; "staff"].
Proof.
  split.
  - intro H.
    destruct (adminAuth_send_cases jwt_verify db authorization)
      as [(u' & E & Ha & Hr) | [(u' & E & _) | (m & E & _)]];
      rewrite E in H; try discriminate.
    injection H as <-. now split.
  - intros (Ha & Hr). rewrite (adminAuth_authenticated _ _ _ _ Ha).
    apply existsb_eqb_In in Hr. now rewrite Hr.
Qed.

(** X2.  When [adminAuth] refuses a request, the answer is 401 unless the
    token verified and resolved to a stored user; only such a user, with a
    role outside admin, manager, staff, is answered 403. *)
Theorem adminAuth_refusal (jwt_verify : string -> option string)
        (db : Db.t) (authorization : option string) (r : Response) :
  AdminAuth.adminAuth jwt_verify db authorization = Send r ->
  (code r = 401%nat
   /\ forall u, ~ Outcome.authenticates jwt_verify db authorization u)
  \/ (code r = 403%nat
      /\ exists u, Outcome.authenticates jwt_verify db authorization u
                   /\ ~ In (User.role u) ["admin"; "manager"; "staff"]).
Proof.
  intro H.
  destruct (adminAuth_send_cases jwt_verify db authorization)
    as [(u' & E & _) | [(u' & E & Ha & Hr) | (m & E & Hno)]];
    rewrite E in H; try discriminate; injection H as <-.
  - right. split; [reflexivity | eauto].
  - left. now split.
Qed.

Lemma adminAuth_refusal_witness :
  (code (status 401 "Access denied. No token provided.") = 401%nat
   /\ forall u,
       ~ Outcome.authenticates Examples.token_is_id Examples.db_one
                               (Some "Bearer ") u)
  \/ (code (status 401 "Access denied. No token provided.") = 403%nat
      /\ exists u,
          Outcome.authenticates Examples.token_is_id Examples.db_one
                                (Some "Bearer ") u
          /\ ~ In (User.role u) ["admin"; "manager"; "staff"]).
Proof.
  apply (adminAuth_refusal Examples.token_is_id Examples.db_one
                           (Some "Bearer ")).
  reflexivity.
Defined.

Lemma prefix_app (p s : string) : String.prefix p (p ++ s) = true.
Proof.
  induction p as [|c p IH]; simpl.
  - now destruct s.
  - destruct (Ascii.ascii_dec c c); [assumption | contradiction].
Qed.

Lemma substring_all (s : string) : String.substring 0 (String.length s) s = s.
Proof.
  induction s as [|c s IH]; simpl; [reflexivity | now rewrite IH].
Qed.

Lemma substring_skip (p s : string) (n : nat) :
  String.substring (String.length p) n (p ++ s) = String.substring 0 n s.
Proof.
  induction p as [|c p IH]; simpl; [reflexivity | assumption].
Qed.

Lemma length_append (p s : string) :
  String.length (p ++ s) = (String.length p + String.length s)%nat.
Proof.
  induction p as [|c p IH]; simpl; [reflexivity | now rewrite IH].
Qed.

Lemma replace_prefix (pat rep s : string) :
  Js.replace pat rep (pat ++ s) = (rep ++ s)%string.
Proof.
  assert (forall t, String.prefix pat t = true ->
                    Js.replace pat rep t
                    = (rep ++ String.substring (String.length pat)
                                 (String.length t - String.length pat) t)%string)
    as Hunfold.
  { intros t Ht. destruct t; cbn [Js.replace]; now rewrite Ht. }
  rewrite Hunfold by apply prefix_app.
  rewrite substring_skip, length_append.
  replace (String.length pat + String.length s - String.length pat)%nat
    with (String.length s) by lia.
  now rewrite substring_all.
Qed.

(** X3.  A request whose header is ["Bearer "] followed by a non-empty token
    that verifies and resolves to a stored admin, manager or staff user is
    let through with that user: stripping the prefix gives back the token. *)
Theorem adminAuth_bearer (jwt_verify : string -> option string)
        (db : Db.t) (token userId : string) (u : User.t) :
  token <> "" ->
  jwt_verify token = Some userId ->
  Db.findUserById db userId = Some u ->
  In (User.role u) ["admin"; "manager"; "staff"] ->
  AdminAuth.adminAuth jwt_verify db (Some ("Bearer " ++ token)) = Next u.
Proof.
  intros Hne Hv Hf Hr.
  assert (Js.replace "Bearer " "" ("Bearer " ++ token) = token) as E
      by apply (replace_prefix "Bearer " "" token).
  rewrite (adminAuth_authenticated jwt_verify db _ u).
  - apply existsb_eqb_In in Hr. now rewrite Hr.
  - exists ("Bearer " ++ token), userId. rewrite E. auto.
Qed.

Lemma adminAuth_bearer_witness :
  AdminAuth.adminAuth Examples.token_is_id Examples.db_one
                      (Some ("Bearer " ++ "s1"))
  = Next Examples.staff_member.
Proof.
  apply (adminAuth_bearer Examples.token_is_id Examples.db_one "s1" "s1").
  - discriminate.
  - reflexivity.
  - reflexivity.
  - simpl. tauto.
Defined.

(** ** Changing a role: what is stored *)

Lemma includes_map_Str (l : list string) (t : string) :
  Js.includes (map Js.Str l) t = true <-> In t l.
Proof.
  rewrite includes_spec, in_map_iff. split.
  - intros (x & E & Hin). injection E as ->. assumption.
  - intro Hin. eauto.
Qed.

Lemma requirePermission_array (u : User.t) (l : list string) (t : string) :
  User.role u <> "admin" ->
  User.permissions u = Js.Arr (map Js.Str l) ->
  AdminAuth.requirePermission t (Some u) = Next tt <-> In t l.
Proof.
  intros Hr Hp. rewrite (requirePermission_non_admin u t Hr), Hp.
  rewrite <- includes_map_Str.
  destruct (Js.includes (map Js.Str l) t); split; congruence.
Qed.

Lemma findUserById_saveUser_other (db : Db.t) (u : User.t) (id : string) :
  id <> User._id u ->
  Db.findUserById (Db.saveUser db u) id = Db.findUserById db id.
Proof.
  intro Hne. unfold Db.findUserById, Db.saveUser, Db.with_users. simpl.
  induction (Db.users db) as [|x l IH]; simpl; [reflexivity|].
  destruct (String.eqb_spec (User._id x) (User._id u)) as [E | E].
  - destruct (String.eqb_spec (User._id u) id); [congruence|].
    destruct (String.eqb_spec (User._id x) id); [congruence | exact IH].
  - destruct (String.eqb_spec (User._id x) id); [reflexivity | exact IH].
Qed.

Lemma update_role_accepts (req_user target : User.t) (userId r : string)
      (permissions : Js.value) (db : Db.t) :
  Db.findUserById db (Js.ObjectId userId) = Some target ->
  In r ["user"; "admin"; "manager"; "staff"] ->
  permissions = Js.Undefined \/ Js.isArray permissions = true ->
  ~ (User._id req_user = userId /\ User.role req_user = "admin"
     /\ r <> "admin") ->
  AdminRoutes.update_role req_user userId (Some r) permissions db
  = (mk 200 (MessageUser "User role updated successfully"
               (User.set_role_permissions target r
                  (Js.or permissions
                     (Js.Arr (map Js.Str (AdminRoutes.defaultPermissions r)))))),
     Db.saveUser db
       (User.set_role_permissions target r
          (Js.or permissions
             (Js.Arr (map Js.Str (AdminRoutes.defaultPermissions r)))))).
Proof.
  intros Hf Hr Hp Hself. unfold AdminRoutes.update_role.
  assert (AdminRoutes.validationResult (Some r) permissions = []) as ->.
  { unfold AdminRoutes.validationResult.
    apply existsb_eqb_In in Hr. rewrite Hr.
    destruct Hp as [-> | Hp]; [reflexivity|].
    destruct permissions; try discriminate; reflexivity. }
  cbn [AdminRoutes.isEmpty negb].
  destruct (String.eqb_spec (User._id req_user) userId) as [E1 | E1];
    destruct (String.eqb_spec (User.role req_user) "admin") as [E2 | E2];
    destruct (String.eqb_spec r "admin") as [E3 | E3];
    cbn [andb negb]; try (now rewrite Hf).
  exfalso. apply Hself. auto.
Qed.

(** X4.  A role change without an explicit permission list stores the new
    role together with the permission list that [GET /roles] shows for it;
    afterwards the target passes [requirePermission(t)] exactly when the new
    role is admin or [t] is in that list.  The target is the user the path
    segment resolves to as an ObjectId, in whatever case it is written. *)
Theorem role_change_defaults (req_user target : User.t) (userId r : string)
        (db : Db.t) :
  Db.findUserById db (Js.ObjectId userId) = Some target ->
  In r ["user"; "admin"; "manager"; "staff"] ->
  ~ (User._id req_user = userId /\ User.role req_user = "admin"
     /\ r <> "admin") ->
  exists u' info,
    Db.findUserById
      (snd (AdminRoutes.update_role req_user userId (Some r) Js.Undefined db))
      (Js.ObjectId userId) = Some u'
    /\ User.role u' = r
    /\ In info AdminUsers.roles
    /\ AdminUsers.name info = r
    /\ User.permissions u'
       = Js.Arr (map Js.Str (AdminUsers.permissions info))
    /\ forall t,
        AdminAuth.requirePermission t (Some u') = Next tt
        <-> r = "admin" \/ In t (AdminUsers.permissions info).
Proof.
  intros Hf Hr Hself.
  rewrite (update_role_accepts req_user target userId r Js.Undefined db
             Hf Hr (or_introl eq_refl) Hself).
  cbn [snd Js.or Js.truthy].
  set (u' := User.set_role_permissions target r _).
  assert (Db.findUserById (Db.saveUser db u') (Js.ObjectId userId) = Some u')
    as Hsaved.
  { pose proof (findUserById_id _ _ _ Hf) as Hid.
    rewrite <- Hid in Hf |- *.
    exact (findUserById_saveUser db u' target Hf). }
  exists u'.
  destruct Hr as [<- | [<- | [<- | [<- | []]]]].
  - exists (AdminUsers.mkRole "user" "Customer" "Customer account" []).
    do 5 (split; [first [exact Hsaved | reflexivity | simpl; auto 6]|]).
    intro t.
    rewrite (requirePermission_array u' [] t ltac:(discriminate) eq_refl).
    simpl. intuition discriminate.
  - exists (AdminUsers.mkRole "admin" "Administrator" "Full system access"
              (AdminRoutes.defaultPermissions "admin")).
    do 5 (split; [first [exact Hsaved | reflexivity | simpl; auto 6]|]).
    intro t. split; [now left|]. intros _. now apply requirePermission_admin.
  - exists (AdminUsers.mkRole "manager" "Manager"
              "Management access to books, orders, and analytics"
              (AdminRoutes.defaultPermissions "manager")).
    do 5 (split; [first [exact Hsaved | reflexivity | simpl; auto 6]|]).
    intro t.
    rewrite (requirePermission_array u' _ t ltac:(discriminate) eq_refl).
    cbn [AdminUsers.permissions]. intuition discriminate.
  - exists (AdminUsers.mkRole "staff" "Staff"
              "Basic access to books and orders"
              (AdminRoutes.defaultPermissions "staff")).
    do 5 (split; [first [exact Hsaved | reflexivity | simpl; auto 6]|]).
    intro t.
    rewrite (requirePermission_array u' _ t ltac:(discriminate) eq_refl).
    cbn [AdminUsers.permissions]. intuition discriminate.
Qed.

Lemma role_change_defaults_witness :
  exists u' info,
    Db.findUserById
      (snd (AdminRoutes.update_role Examples.legacy_admin "c1"
              (Some "manager") Js.Undefined Examples.db_one))
      "c1" = Some u'
    /\ User.role u' = "manager"
    /\ In info AdminUsers.roles
    /\ AdminUsers.name info = "manager"
    /\ User.permissions u'
       = Js.Arr (map Js.Str (AdminUsers.permissions info))
    /\ forall t,
        AdminAuth.requirePermission t (Some u') = Next tt
        <-> "manager" = "admin" \/ In t (AdminUsers.permissions info).
Proof.
  apply (role_change_defaults Examples.legacy_admin Examples.customer "c1"
           "manager" Examples.db_one).
  - reflexivity.
  - simpl. tauto.
  - intros (H & _). discriminate.
Defined.

(** X5.  A role change that carries a permission array stores exactly that
    array, an empty one included, in place of the role's defaults, and leaves
    every other user as stored.  The target is the user the path segment
    resolves to as an ObjectId. *)
Theorem role_change_explicit (req_user target : User.t) (userId r : string)
        (items : list Js.value) (db : Db.t) :
  Db.findUserById db (Js.ObjectId userId) = Some target ->
  In r ["user"; "admin"; "manager"; "staff"] ->
  ~ (User._id req_user = userId /\ User.role req_user = "admin"
     /\ r <> "admin") ->
  Db.findUserById
    (snd (AdminRoutes.update_role req_user userId (Some r) (Js.Arr items) db))
    (Js.ObjectId userId)
  = Some (User.mk (Js.ObjectId userId) r (Js.Arr items))
  /\ forall id,
      id <> Js.ObjectId userId ->
      Db.findUserById
        (snd (AdminRoutes.update_role req_user userId (Some r)
                (Js.Arr items) db)) id
      = Db.findUserById db id.
Proof.
  intros Hf Hr Hself.
  rewrite (update_role_accepts req_user target userId r (Js.Arr items) db
             Hf Hr (or_intror eq_refl) Hself).
  cbn [snd Js.or Js.truthy].
  pose proof (findUserById_id _ _ _ Hf) as Hid.
  unfold User.set_role_permissions. rewrite Hid. split.
  - apply (findUserById_saveUser db
             (User.mk (Js.ObjectId userId) r (Js.Arr items)) target).
    exact Hf.
  - intros id Hne. now apply findUserById_saveUser_other.
Qed.

Lemma role_change_explicit_witness :
  Db.findUserById
    (snd (AdminRoutes.update_role Examples.legacy_admin "c1" (Some "staff")
            (Js.Arr []) Examples.db_one))
    "c1"
  = Some (User.mk "c1" "staff" (Js.Arr [])).
Proof.
  apply (proj1 (role_change_explicit Examples.legacy_admin Examples.customer
                  "c1" "staff" [] Examples.db_one eq_refl
                  ltac:(simpl; tauto)
                  ltac:(intros (H & _); discriminate))).
Defined.

(** X6.  Whatever the request, the role handler never stores a role outside
    user, admin, manager, staff nor a permission field that is not an array:
    every user stored afterwards either was stored before or is the target
    with such a role and an array of permissions. *)
Theorem role_change_stores_valid (req_user : User.t) (userId : string)
        (role : option string) (permissions : Js.value) (db : Db.t)
        (u' : User.t) :
  In u' (Db.users (snd (AdminRoutes.update_role req_user userId role
                          permissions db))) ->
  In u' (Db.users db)
  \/ (User._id u' = Js.ObjectId userId
      /\ In (User.role u') ["user"; "admin"; "manager"; "staff"]
      /\ Js.isArray (User.permissions u') = true).
Proof.
  unfold AdminRoutes.update_role.
  destruct (AdminRoutes.validationResult role permissions) eqn:Hv;
    cbn [AdminRoutes.isEmpty negb]; [|now left].
  destruct role as [r|]; [|now left].
  destruct (_ && _ && _); [now left|].
  destruct (Db.findUserById db (Js.ObjectId userId)) as [target|] eqn:Hf;
    [|now left].
  cbn [snd]. unfold Db.saveUser, Db.with_users. cbn [Db.users].
  intro Hin. apply in_map_iff in Hin as (x & Hx & Hin).
  cbn [User._id User.set_role_permissions] in Hx.
  destruct (User._id x =? User._id target)%string; [|subst; now left].
  right. subst u'. cbn [User._id User.role User.permissions
                         User.set_role_permissions].
  unfold AdminRoutes.validationResult in Hv.
  apply app_eq_nil in Hv as (Hrole & Hperm).
  split; [now apply findUserById_id in Hf|]. split.
  - destruct (existsb (String.eqb r) _) eqn:E; [|discriminate].
    now apply existsb_eqb_In.
  - destruct permissions; try reflexivity; simpl in Hperm; discriminate.
Qed.

Lemma role_change_stores_valid_witness :
  In (User.mk "c1" "staff" (Js.Arr [])) (Db.users Examples.db_one)
  \/ (User._id (User.mk "c1" "staff" (Js.Arr [])) = "c1"
      /\ In (User.role (User.mk "c1" "staff" (Js.Arr [])))
            ["user"; "admin"; "manager"; "staff"]
      /\ Js.isArray (User.permissions (User.mk "c1" "staff" (Js.Arr [])))
         = true).
Proof.
  apply (role_change_stores_valid Examples.legacy_admin "c1" (Some "staff")
           (Js.Arr []) Examples.db_one).
  simpl. tauto.
Defined.

(** ** Subscribing and reading the current subscription *)

Lemma plan_at_valid (key : string) :
  In key ["basic"; "standard"; "premium"] ->
  exists p,
    Subscription.plan_at Subscription.getPlans key = Some p
    /\ Subscription.duration p = 30
    /\ In (Subscription.plan_price p) [99; 299; 599].
Proof.
  simpl. intros [<- | [<- | [<- | []]]]; eexists;
    (split; [reflexivity|]); split; simpl; auto.
Qed.

Lemma find_app_none {A : Type} (f : A -> bool) (l l' : list A) :
  find f l = None -> find f (l ++ l') = find f l'.
Proof.
  induction l as [|a l IH]; simpl; [reflexivity|].
  destruct (f a); [discriminate | exact IH].
Qed.

Lemma no_active_unexpired_later (uid : string) (now t : Z)
      (l : list Subscription.t) :
  now <= t ->
  find (SubscriptionRoutes.active_unexpired uid now) l = None ->
  find (SubscriptionRoutes.active_unexpired uid t) l = None.
Proof.
  intros Ht H. apply find_none_iff. intros x Hx.
  pose proof (find_none _ _ H x Hx) as Hnow.
  destruct (SubscriptionRoutes.active_unexpired uid t x) eqn:E;
    [|reflexivity].
  apply active_unexpired_true in E as (Hu & Hs & Hlt).
  assert (SubscriptionRoutes.active_unexpired uid now x = true) as Hc
      by (apply active_unexpired_true; repeat split; auto; lia).
  congruence.
Qed.

Lemma subscribe_created (now : Z) (uid key : string)
      (paymentId : option string) (db : Db.t) :
  In key ["basic"; "standard"; "premium"] ->
  ~ Outcome.has_active_unexpired now uid db ->
  exists p,
    Subscription.plan_at Subscription.getPlans key = Some p
    /\ Subscription.duration p = 30
    /\ In (Subscription.plan_price p) [99; 299; 599]
    /\ find (SubscriptionRoutes.active_unexpired uid now)
            (Db.subscriptions db) = None
    /\ SubscriptionRoutes.subscribe now uid (Js.Str key) paymentId db
       = (mk 201 (MessageSubscription "Subscription created successfully"
                    (SubscriptionRoutes.new_subscription
                       now uid key p paymentId (Db.next_id db))),
          Db.mk (Db.users db)
                (Db.subscriptions db
                   ++ [SubscriptionRoutes.new_subscription
                         now uid key p paymentId (Db.next_id db)])
                (S (Db.next_id db))).
Proof.
  intros Hkey Hno.
  destruct (plan_at_valid key Hkey) as (p & Hp & Hd & Hprice).
  destruct (subscribe_valid now uid key paymentId db Hkey)
    as (p' & Hp' & Heq).
  assert (p' = p) as -> by congruence.
  exists p. repeat (split; [assumption|]).
  assert (find (SubscriptionRoutes.active_unexpired uid now)
               (Db.subscriptions db) = None) as Hnone.
  { destruct (find _ (Db.subscriptions db)) as [s|] eqn:E; [|reflexivity].
    exfalso. apply Hno. apply findOne_active_unexpired. now exists s. }
  split; [exact Hnone|].
  rewrite Heq. unfold Db.findOne. now rewrite Hnone.
Qed.

(** X7.  Every request to [subscribe] either answers 201 and appends exactly
    one record (fresh id, owned by the caller, stored active with auto-renew
    on, starting now and ending exactly 30 days later, priced 99, 299 or
    599), or answers 400 and leaves the database as it was; it never answers
    500. *)
Theorem subscribe_outcomes (now : Z) (uid : string) (plan : Js.value)
        (paymentId : option string) (db : Db.t) :
  (code (fst (SubscriptionRoutes.subscribe now uid plan paymentId db))
   = 201%nat
   /\ exists s,
       Db.subscriptions
         (snd (SubscriptionRoutes.subscribe now uid plan paymentId db))
       = (Db.subscriptions db ++ [s])%list
       /\ Subscription._id s = Db.next_id db
       /\ Subscription.user s = uid
       /\ plan = Js.Str (Subscription.plan s)
       /\ Subscription.status s = "active"
       /\ Subscription.autoRenew s = true
       /\ Subscription.paymentId s = paymentId
       /\ Subscription.startDate s = now
       /\ Subscription.endDate s = now + 30 * SubscriptionRoutes.MS_PER_DAY
       /\ In (Subscription.price s) [99; 299; 599])
  \/ (code (fst (SubscriptionRoutes.subscribe now uid plan paymentId db))
      = 400%nat
      /\ snd (SubscriptionRoutes.subscribe now uid plan paymentId db) = db).
Proof.
  destruct (Js.lits_include ["basic"; "standard"; "premium"] plan) eqn:E.
  - apply lits_include_spec in E as (key & -> & Hkey).
    destruct (find (SubscriptionRoutes.active_unexpired uid now)
                   (Db.subscriptions db)) as [s0|] eqn:F.
    + right.
      destruct (subscribe_valid now uid key paymentId db Hkey)
        as (p & _ & ->).
      unfold Db.findOne. rewrite F. now split.
    + left.
      destruct (subscribe_created now uid key paymentId db Hkey)
        as (p & _ & Hd & Hprice & _ & ->).
      { intro H. apply findOne_active_unexpired in H as (s & Hs).
        unfold Db.findOne in Hs. congruence. }
      split; [reflexivity|]. eexists. split; [reflexivity|].
      simpl. rewrite Hd. repeat split. exact Hprice.
  - right. rewrite (subscribe_invalid _ _ _ _ _ E). now split.
Qed.

(** X8.  After a successful [subscribe] at time [now], [GET /current]
    returns the new record at every time from [now] up to, but not
    including, 30 days later, and returns nothing from then on, although no
    request has changed the stored status. *)
Theorem subscribe_then_current (now t : Z) (uid key : string)
        (paymentId : option string) (db : Db.t) :
  In key ["basic"; "standard"; "premium"] ->
  ~ Outcome.has_active_unexpired now uid db ->
  now <= t ->
  (t < now + 30 * SubscriptionRoutes.MS_PER_DAY ->
   exists s,
     SubscriptionRoutes.current t uid
       (snd (SubscriptionRoutes.subscribe now uid (Js.Str key) paymentId db))
     = Some s
     /\ Subscription._id s = Db.next_id db
     /\ Subscription.plan s = key
     /\ Subscription.status s = "active")
  /\ (now + 30 * SubscriptionRoutes.MS_PER_DAY <= t ->
      SubscriptionRoutes.current t uid
        (snd (SubscriptionRoutes.subscribe now uid (Js.Str key) paymentId db))
      = None
      /\ exists s,
          In s (Db.subscriptions
                  (snd (SubscriptionRoutes.subscribe now uid (Js.Str key)
                          paymentId db)))
          /\ Subscription.user s = uid
          /\ Subscription.status s = "active").
Proof.
  intros Hkey Hno Ht.
  destruct (subscribe_created now uid key paymentId db Hkey Hno)
    as (p & _ & Hd & _ & Hnone & ->).
  unfold SubscriptionRoutes.current, Db.findOne. cbn [snd Db.subscriptions].
  rewrite (find_app_none _ _ _ (no_active_unexpired_later _ _ _ _ Ht Hnone)).
  assert (SubscriptionRoutes.active_unexpired uid t
            (SubscriptionRoutes.new_subscription now uid key p paymentId
                                                 (Db.next_id db))
          = (t <? now + 30 * SubscriptionRoutes.MS_PER_DAY)) as Hnew.
  { unfold SubscriptionRoutes.active_unexpired. cbn.
    now rewrite String.eqb_refl, Hd. }
  cbn [find]. rewrite Hnew. split; intro Hend.
  - apply Z.ltb_lt in Hend. rewrite Hend. eexists. split; [reflexivity|].
    repeat split.
  - apply Z.ltb_ge in Hend. rewrite Hend. split; [reflexivity|].
    eexists. split; [apply in_or_app; right; left; reflexivity|].
    now split.
Qed.

Lemma subscribe_then_current_witness :
  exists s,
    SubscriptionRoutes.current (29 * Examples.day) "c1"
      (snd (SubscriptionRoutes.subscribe 0 "c1" (Js.Str "standard")
              (Some "pay_1") (Db.empty Examples.people)))
    = Some s
    /\ Subscription._id s = 0%nat
    /\ Subscription.plan s = "standard"
    /\ Subscription.status s = "active".
Proof.
  apply (proj1 (subscribe_then_current 0 (29 * Examples.day) "c1" "standard"
                  (Some "pay_1") (Db.empty Examples.people)
                  ltac:(simpl; tauto)
                  ltac:(intros (s & [] & _))
                  ltac:(vm_compute; discriminate))).
  reflexivity.
Defined.

(** X9.  Two [subscribe] requests of the same principal handled one after
    the other at the same clock reading never both create a record: whatever
    the first one did, the second is answered with the conflict message and
    changes nothing. *)
Theorem subscribe_twice_conflicts (now : Z) (uid key key' : string)
        (paymentId paymentId' : option string) (db : Db.t) :
  In key ["basic"; "standard"; "premium"] ->
  In key' ["basic"; "standard"; "premium"] ->
  SubscriptionRoutes.subscribe now uid (Js.Str key') paymentId'
    (snd (SubscriptionRoutes.subscribe now uid (Js.Str key) paymentId db))
  = (status 400 "You already have an active subscription",
     snd (SubscriptionRoutes.subscribe now uid (Js.Str key) paymentId db)).
Proof.
  intros Hkey Hkey'.
  set (db' := snd (SubscriptionRoutes.subscribe now uid (Js.Str key)
                     paymentId db)).
  assert (exists s, Db.findOne db' (SubscriptionRoutes.active_unexpired uid now)
                    = Some s) as (s & Hs).
  { apply findOne_active_unexpired. subst db'.
    destruct (find (SubscriptionRoutes.active_unexpired uid now)
                   (Db.subscriptions db)) as [s0|] eqn:F.
    - destruct (subscribe_valid now uid key paymentId db Hkey)
        as (p & _ & ->).
      unfold Db.findOne. rewrite F. cbn [snd].
      apply findOne_active_unexpired. exists s0. exact F.
    - destruct (subscribe_created now uid key paymentId db Hkey)
        as (p & _ & Hd & _ & _ & ->).
      { intro H. apply findOne_active_unexpired in H as (s & Hs).
        unfold Db.findOne in Hs. congruence. }
      eexists. split; [apply in_or_app; right; left; reflexivity|].
      cbn. rewrite Hd. repeat split. unfold SubscriptionRoutes.MS_PER_DAY.
      lia. }
  destruct (subscribe_valid now uid key' paymentId' db' Hkey')
    as (p & _ & ->).
  now rewrite Hs.
Qed.

Lemma subscribe_twice_conflicts_witness :
  SubscriptionRoutes.subscribe 0 "c1" (Js.Str "premium") None
    (snd (SubscriptionRoutes.subscribe 0 "c1" (Js.Str "basic") None
            (Db.empty Examples.people)))
  = (status 400 "You already have an active subscription",
     snd (SubscriptionRoutes.subscribe 0 "c1" (Js.Str "basic") None
            (Db.empty Examples.people))).
Proof.
  apply (subscribe_twice_conflicts 0 "c1" "basic" "premium" None None
           (Db.empty Examples.people)); simpl; tauto.
Defined.

(** X10.  [GET /current] and the [isActive] virtual agree: the record
    returned belongs to the caller and is active in the virtual's sense, and
    nothing is returned exactly when no record of the caller is. *)
Theorem current_isActive (now : Z) (uid : string) (db : Db.t) :
  (forall s,
      SubscriptionRoutes.current now uid db = Some s ->
      In s (Db.subscriptions db)
      /\ Subscription.user s = uid
      /\ Subscription.isActive now s = true)
  /\ (SubscriptionRoutes.current now uid db = None
      <-> forall s, In s (Db.subscriptions db) ->
                    Subscription.user s = uid ->
                    Subscription.isActive now s = false).
Proof.
  assert (forall s, SubscriptionRoutes.active_unexpired uid now s
                    = (Subscription.user s =? uid)%string
                      && Subscription.isActive now s) as Hsplit.
  { intro s. unfold SubscriptionRoutes.active_unexpired,
      Subscription.isActive. now rewrite andb_assoc. }
  unfold SubscriptionRoutes.current, Db.findOne. split.
  - intros s H. apply find_some in H as (Hin & H).
    rewrite Hsplit in H. apply andb_true_iff in H as (Hu & Ha).
    apply String.eqb_eq in Hu. auto.
  - rewrite find_none_iff. split; intros H s Hin.
    + intros <-. specialize (H s Hin). rewrite Hsplit in H.
      now rewrite String.eqb_refl in H.
    + rewrite Hsplit.
      destruct (String.eqb_spec (Subscription.user s) uid); [|reflexivity].
      now apply H.
Qed.

Lemma current_isActive_witness :
  SubscriptionRoutes.current (31 * Examples.day) "c1" Examples.db_one = None.
Proof.
  apply (proj2 (current_isActive (31 * Examples.day) "c1" Examples.db_one)).
  intros s [<- | []] _. reflexivity.
Defined.

(** ** Updating one stored record *)

Lemma findById_save_other (now : Z) (db : Db.t) (s : Subscription.t)
      (id : nat) :
  id <> Subscription._id s ->
  Db.findById (Db.save now db s) id = Db.findById db id.
Proof.
  intro Hne. unfold Db.findById, Db.findOne, Db.save, Db.with_subscriptions.
  cbn [Db.subscriptions].
  induction (Db.subscriptions db) as [|x l IH]; simpl; [reflexivity|].
  destruct (Nat.eqb_spec (Subscription._id x) (Subscription._id s)) as [E | E].
  - simpl. destruct (Nat.eqb_spec (Subscription._id s) id); [congruence|].
    destruct (Nat.eqb_spec (Subscription._id x) id); [congruence | exact IH].
  - destruct (Nat.eqb_spec (Subscription._id x) id); [reflexivity | exact IH].
Qed.

Lemma find_map_pointwise {A : Type} (p : A -> bool) (f : A -> A)
      (l : list A) :
  (forall x, In x l -> p (f x) = p x) ->
  find p (map f l) = option_map f (find p l).
Proof.
  induction l as [|a l IH]; simpl; intro H; [reflexivity|].
  rewrite (H a (or_introl eq_refl)).
  destruct (p a); [reflexivity|]. apply IH. intros x Hx. apply H. now right.
Qed.

(** X11.  [PUT /auto-renew] answers 404 and changes nothing when the caller
    has no record stored as active; otherwise it rewrites the first such
    record, changing the auto-renew flag and the [updatedAt] stamp only, and
    (ids being unique) the subscription that [GET /current] returns, for any
    principal at any time, is the same one as before. *)
Theorem auto_renew_effect (now : Z) (uid : string) (flag : bool) (db : Db.t) :
  Lifecycle.unique_ids db ->
  ((forall s, In s (Db.subscriptions db) ->
              SubscriptionRoutes.stored_active uid s = false) ->
   SubscriptionRoutes.auto_renew now uid flag db
   = (status 404 "No active subscription found", db))
  /\ (forall s,
         Db.findOne db (SubscriptionRoutes.stored_active uid) = Some s ->
         Db.findById (snd (SubscriptionRoutes.auto_renew now uid flag db))
                     (Subscription._id s)
         = Some (Subscription.mk
                   (Subscription._id s) (Subscription.user s)
                   (Subscription.plan s) (Subscription.planName s)
                   (Subscription.price s) (Subscription.features s)
                   (Subscription.status s) (Subscription.startDate s)
                   (Subscription.endDate s) (Subscription.paymentId s)
                   flag (Subscription.createdAt s) now))
  /\ (forall t uid',
         option_map Subscription._id
           (SubscriptionRoutes.current t uid'
              (snd (SubscriptionRoutes.auto_renew now uid flag db)))
         = option_map Subscription._id
             (SubscriptionRoutes.current t uid' db)).
Proof.
  intros (Hnd & _). unfold SubscriptionRoutes.auto_renew.
  split; [|split].
  - intro H. unfold Db.findOne. apply find_none_iff in H. now rewrite H.
  - intros s Hs. rewrite Hs. cbn [snd].
    apply find_some in Hs as (Hin & _).
    apply (findById_save now db (Subscription.set_autoRenew s flag)).
    exists s. now split.
  - intros t uid'.
    destruct (Db.findOne db (SubscriptionRoutes.stored_active uid))
      as [s|] eqn:Hs; [|reflexivity].
    apply find_some in Hs as (Hin & _).
    unfold SubscriptionRoutes.current, Db.findOne, Db.save,
      Db.with_subscriptions. cbn [snd Db.subscriptions].
    assert (forall x, In x (Db.subscriptions db) ->
                      Subscription._id x = Subscription._id s -> x = s)
      as Huniq.
    { intros x Hx E. now apply (unique_id_determines _ _ _ Hnd). }
    rewrite find_map_pointwise.
    + destruct (find _ (Db.subscriptions db)) as [x|] eqn:F; [|reflexivity].
      simpl.
      destruct (Nat.eqb_spec (Subscription._id x) (Subscription._id s))
        as [E | E]; [simpl; now rewrite E | reflexivity].
    + intros x Hx. cbn [Subscription._id Subscription.set_autoRenew].
      destruct (Nat.eqb_spec (Subscription._id x) (Subscription._id s))
        as [E | E]; [|reflexivity].
      now rewrite (Huniq x Hx E).
Qed.

Lemma auto_renew_effect_witness :
  option_map Subscription._id
    (SubscriptionRoutes.current Examples.day "c1"
       (snd (SubscriptionRoutes.auto_renew Examples.day "c1" false
               Examples.db_one)))
  = option_map Subscription._id
      (SubscriptionRoutes.current Examples.day "c1" Examples.db_one).
Proof.
  apply (proj2 (proj2 (auto_renew_effect Examples.day "c1" false
                         Examples.db_one
                         ltac:(split; repeat constructor; simpl; tauto)))).
Defined.

(** X12.  [PUT /:id/status] moves a stored record from any status to any of
    the four statuses: it answers 200, the record then carries the new
    status and the request time as [updatedAt] and is otherwise unchanged,
    and records with other ids are untouched; for an id that is not stored
    it answers 404 and changes nothing. *)
Theorem set_status_effect (now : Z) (id : nat) (st : string) (db : Db.t) :
  In st ["active"; "expired"; "cancelled"; "pending"] ->
  (forall s,
      Db.findById db id = Some s ->
      code (fst (AdminSubscriptions.set_status now id (Js.Str st) db))
      = 200%nat
      /\ Db.findById
           (snd (AdminSubscriptions.set_status now id (Js.Str st) db)) id
         = Some (Subscription.mk
                   (Subscription._id s) (Subscription.user s)
                   (Subscription.plan s) (Subscription.planName s)
                   (Subscription.price s) (Subscription.features s)
                   st (Subscription.startDate s)
                   (Subscription.endDate s) (Subscription.paymentId s)
                   (Subscription.autoRenew s) (Subscription.createdAt s) now)
      /\ forall id',
          id' <> id ->
          Db.findById
            (snd (AdminSubscriptions.set_status now id (Js.Str st) db)) id'
          = Db.findById db id')
  /\ (Db.findById db id = None ->
      AdminSubscriptions.set_status now id (Js.Str st) db
      = (status 404 "Subscription not found", db)).
Proof.
  intro Hst. unfold AdminSubscriptions.set_status.
  assert (Js.lits_include ["active"; "expired"; "cancelled"; "pending"]
                          (Js.Str st) = true) as ->
      by (apply lits_include_spec; eauto).
  cbn [negb]. split.
  - intros s Hs. rewrite Hs. cbn [fst snd].
    apply findById_id in Hs as (Hin & <-).
    split; [reflexivity|]. split.
    + apply (findById_save now db (Subscription.set_status s st)).
      exists s. now split.
    + intros id' Hne. now apply findById_save_other.
  - intros ->. reflexivity.
Qed.

Lemma set_status_effect_witness :
  AdminSubscriptions.set_status Examples.day 5 (Js.Str "expired")
                                Examples.db_one
  = (status 404 "Subscription not found", Examples.db_one).
Proof.
  apply (proj2 (set_status_effect Examples.day 5 "expired" Examples.db_one
                  ltac:(simpl; tauto))).
  reflexivity.
Defined.

Lemma extend_stored (now : Z) (id : nat) (d : Z) (db : Db.t)
      (s : Subscription.t) :
  d > 0 ->
  Db.findById db id = Some s ->
  Js.valid_time (Subscription.endDate s + d * AdminSubscriptions.MS_PER_DAY) ->
  Db.findById (snd (AdminSubscriptions.extend now id (Some d) db)) id
  = Some (Subscription.pre_save now
            (Subscription.set_endDate s
               (Subscription.endDate s
                + d * AdminSubscriptions.MS_PER_DAY))).
Proof.
  intros Hd Hs Hv. rewrite (extend_in_range now id d db s Hd Hs Hv).
  cbn [snd]. apply findById_id in Hs as (Hin & <-).
  apply (findById_save now db
           (Subscription.set_endDate s
              (Subscription.endDate s
               + d * AdminSubscriptions.MS_PER_DAY))).
  exists s. now split.
Qed.

(** X13.  Two extensions add up: for a stored record whose end date is a
    valid time, after [extend] by [d1] days and then by [d2] days, the total
    staying within the range of valid [Date]s, the stored end date is the
    original one plus [d1 + d2] days, and the status is the original one. *)
Theorem extend_twice (t1 t2 : Z) (id : nat) (d1 d2 : Z) (db : Db.t)
        (s : Subscription.t) :
  d1 > 0 -> d2 > 0 ->
  Db.findById db id = Some s ->
  Js.valid_time (Subscription.endDate s) ->
  Subscription.endDate s + (d1 + d2) * AdminSubscriptions.MS_PER_DAY
  <= Js.MAX_TIME ->
  exists s',
    Db.findById
      (snd (AdminSubscriptions.extend t2 id (Some d2)
              (snd (AdminSubscriptions.extend t1 id (Some d1) db)))) id
    = Some s'
    /\ Subscription.endDate s'
       = Subscription.endDate s + (d1 + d2) * AdminSubscriptions.MS_PER_DAY
    /\ Subscription.status s' = Subscription.status s
    /\ Subscription.startDate s' = Subscription.startDate s.
Proof.
  intros H1 H2 Hs (Hlo & Hhi) Hmax.
  assert (Js.valid_time
            (Subscription.endDate s + d1 * AdminSubscriptions.MS_PER_DAY))
    as Hv1
      by (unfold Js.valid_time, AdminSubscriptions.MS_PER_DAY in *; lia).
  pose proof (extend_stored t1 id d1 db s H1 Hs Hv1) as Hfirst.
  assert (Js.valid_time
            (Subscription.endDate
               (Subscription.pre_save t1
                  (Subscription.set_endDate s
                     (Subscription.endDate s
                      + d1 * AdminSubscriptions.MS_PER_DAY)))
             + d2 * AdminSubscriptions.MS_PER_DAY)) as Hv2
      by (cbn; unfold Js.valid_time, AdminSubscriptions.MS_PER_DAY in *; lia).
  pose proof (extend_stored t2 id d2 _ _ H2 Hfirst Hv2) as Hsecond.
  eexists. split; [exact Hsecond|].
  cbn. repeat split. lia.
Qed.

Lemma extend_twice_witness :
  exists s',
    Db.findById
      (snd (AdminSubscriptions.extend Examples.day 0 (Some 3)
              (snd (AdminSubscriptions.extend Examples.day 0 (Some 7)
                      Examples.db_one)))) 0
    = Some s'
    /\ Subscription.endDate s' = 40 * Examples.day.
Proof.
  destruct (extend_twice Examples.day Examples.day 0 7 3 Examples.db_one
              (SubscriptionRoutes.new_subscription
                 0 "c1" "standard"
                 (Subscription.mkPlan "Standard Plan" 299 30
                    ["Access to PDF books"; "Priority customer support";
                     "Mobile app access"; "Offline reading";
                     "Bookmarks & notes"]
                    "Great for regular readers")
                 (Some "pay_1") 0)
              eq_refl eq_refl eq_refl
              ltac:(split; vm_compute; discriminate)
              ltac:(vm_compute; discriminate))
    as (s' & H1 & H2 & _).
  exists s'. split; [exact H1 | exact H2].
Defined.

(** X14.  [extend] can bring an expired record back: when the stored status
    is active and the end date, a valid time, has passed, the record is not
    active; after an extension that moves the end date beyond the current
    time, and not beyond the largest valid [Date], it is active again, with
    the stored status never touched. *)
Theorem extend_revives (now : Z) (id : nat) (d : Z) (db : Db.t)
        (s : Subscription.t) :
  d > 0 ->
  Db.findById db id = Some s ->
  Subscription.status s = "active" ->
  Js.valid_time (Subscription.endDate s) ->
  Subscription.endDate s <= now ->
  now < Subscription.endDate s + d * AdminSubscriptions.MS_PER_DAY ->
  Subscription.endDate s + d * AdminSubscriptions.MS_PER_DAY <= Js.MAX_TIME ->
  Subscription.isActive now s = false
  /\ exists s',
      Db.findById (snd (AdminSubscriptions.extend now id (Some d) db)) id
      = Some s'
      /\ Subscription.isActive now s' = true
      /\ Subscription.status s' = Subscription.status s.
Proof.
  intros Hd Hs Hst (Hlo & Hhi) Hpast Hfuture Hmax. split.
  - unfold Subscription.isActive. rewrite Hst. simpl. now apply Z.ltb_ge.
  - eexists. split.
    + apply (extend_stored now id d db s Hd Hs).
      unfold Js.valid_time, AdminSubscriptions.MS_PER_DAY in *. lia.
    + unfold Subscription.isActive. cbn. rewrite Hst. simpl.
      split; [now apply Z.ltb_lt | reflexivity].
Qed.

Lemma extend_revives_witness :
  Subscription.isActive (31 * Examples.day)
    (SubscriptionRoutes.new_subscription
       0 "c1" "standard"
       (Subscription.mkPlan "Standard Plan" 299 30
          ["Access to PDF books"; "Priority customer support";
           "Mobile app access"; "Offline reading"; "Bookmarks & notes"]
          "Great for regular readers")
       (Some "pay_1") 0)
  = false
  /\ exists s',
      Db.findById
        (snd (AdminSubscriptions.extend (31 * Examples.day) 0 (Some 10)
                Examples.db_one)) 0
      = Some s'
      /\ Subscription.isActive (31 * Examples.day) s' = true
      /\ Subscription.status s'
         = Subscription.status
             (SubscriptionRoutes.new_subscription
                0 "c1" "standard"
                (Subscription.mkPlan "Standard Plan" 299 30
                   ["Access to PDF books"; "Priority customer support";
                    "Mobile app access"; "Offline reading";
                    "Bookmarks & notes"]
                   "Great for regular readers")
                (Some "pay_1") 0).
Proof.
  apply (extend_revives (31 * Examples.day) 0 10 Examples.db_one
           (SubscriptionRoutes.new_subscription
              0 "c1" "standard"
              (Subscription.mkPlan "Standard Plan" 299 30
                 ["Access to PDF books"; "Priority customer support";
                  "Mobile app access"; "Offline reading";
                  "Bookmarks & notes"]
                 "Great for regular readers")
              (Some "pay_1") 0)
           eq_refl eq_refl eq_refl).
  - split; vm_compute; discriminate.
  - vm_compute. discriminate.
  - reflexivity.
  - vm_compute. discriminate.
Defined.

(** ** Deleting and the bulk actions *)

Lemma existsb_nat_In (a : nat) (l : list nat) :
  existsb (Nat.eqb a) l = true <-> In a l.
Proof.
  rewrite existsb_exists. split.
  - intros (x & Hin & E). apply Nat.eqb_eq in E. now subst.
  - intro Hin. exists a. split; [assumption | apply Nat.eqb_refl].
Qed.

Lemma filter_split_length {A : Type} (p : A -> bool) (l : list A) :
  List.length l
  = (List.length (filter p l)
     + List.length (filter (fun x => negb (p x)) l))%nat.
Proof.
  induction l as [|a l IH]; simpl; [reflexivity|].
  destruct (p a); simpl; lia.
Qed.

Lemma filter_nil_iff {A : Type} (p : A -> bool) (l : list A) :
  (forall x, In x l -> p x = false) -> filter p l = [].
Proof.
  induction l as [|a l IH]; simpl; intro H; [reflexivity|].
  rewrite (H a (or_introl eq_refl)). apply IH. intros x Hx. apply H.
  now right.
Qed.

(** X15.  [DELETE /:id] on a stored id answers 200; afterwards [GET /:id]
    answers 404 for that id and every other id resolves as before.  On an id
    that is not stored it answers 404 and changes nothing. *)
Theorem delete_effect (id : nat) (db : Db.t) :
  (forall s,
      Db.findById db id = Some s ->
      fst (AdminSubscriptions.delete id db)
      = status 200 "Subscription deleted successfully"
      /\ SubscriptionStats.get_by_id id (snd (AdminSubscriptions.delete id db))
         = inl (status 404 "Subscription not found")
      /\ forall id',
          id' <> id ->
          Db.findById (snd (AdminSubscriptions.delete id db)) id'
          = Db.findById db id')
  /\ (Db.findById db id = None ->
      AdminSubscriptions.delete id db
      = (status 404 "Subscription not found", db)).
Proof.
  unfold AdminSubscriptions.delete. split.
  - intros s Hs. rewrite Hs. cbn [fst snd]. split; [reflexivity|].
    unfold SubscriptionStats.get_by_id, Db.findById, Db.findOne,
      Db.with_subscriptions. cbn [Db.subscriptions]. split.
    + replace (find _ (filter _ (Db.subscriptions db)))
        with (@None Subscription.t); [reflexivity|].
      symmetry. apply find_none_iff. intros x Hx.
      apply filter_In in Hx as (_ & Hx). now apply negb_true_iff in Hx.
    + intros id' Hne.
      induction (Db.subscriptions db) as [|x l IH]; simpl; [reflexivity|].
      destruct (Nat.eqb_spec (Subscription._id x) id) as [E | E]; simpl.
      * destruct (Nat.eqb_spec (Subscription._id x) id');
          [congruence | exact IH].
      * destruct (Nat.eqb_spec (Subscription._id x) id');
          [reflexivity | exact IH].
  - intros ->. reflexivity.
Qed.

Lemma delete_effect_witness :
  fst (AdminSubscriptions.delete 0 Examples.db_one)
  = status 200 "Subscription deleted successfully"
  /\ SubscriptionStats.get_by_id 0
       (snd (AdminSubscriptions.delete 0 Examples.db_one))
     = inl (status 404 "Subscription not found").
Proof.
  destruct (proj1 (delete_effect 0 Examples.db_one) _ eq_refl)
    as (H1 & H2 & _).
  split; [exact H1 | exact H2].
Defined.

(** X16.  [POST /bulk] answers 200 exactly when [subscriptionIds] is an
    array and the action is cancel, activate or delete; every other request
    is answered 400 and changes nothing. *)
Theorem bulk_requests (action : Js.value)
        (subscriptionIds : option (list nat)) (db : Db.t) :
  (code (fst (AdminSubscriptions.bulk action subscriptionIds db)) = 200%nat
   <-> (exists ids, subscriptionIds = Some ids)
       /\ In action [Js.Str "cancel"; Js.Str "activate"; Js.Str "delete"])
  /\ (code (fst (AdminSubscriptions.bulk action subscriptionIds db))
      = 200%nat
      \/ (code (fst (AdminSubscriptions.bulk action subscriptionIds db))
          = 400%nat
          /\ snd (AdminSubscriptions.bulk action subscriptionIds db) = db)).
Proof.
  unfold AdminSubscriptions.bulk.
  destruct subscriptionIds as [ids|].
  - destruct (Js.truthy action) eqn:Ht; cbn [negb].
    + destruct (Js.is_str "cancel" action) eqn:Ec;
        [|destruct (Js.is_str "activate" action) eqn:Ea;
          [|destruct (Js.is_str "delete" action) eqn:Ed]];
        cbn [fst snd code]; (split; [split|]); auto; try discriminate.
      * intros _. apply is_str_true in Ec as ->. split; [eauto | simpl; auto].
      * intros _. apply is_str_true in Ea as ->. split; [eauto | simpl; auto].
      * intros _. apply is_str_true in Ed as ->. split; [eauto | simpl; auto].
      * intros (_ & [<- | [<- | [<- | []]]]); discriminate.
    + cbn [fst snd code]. split; [split|]; auto; try discriminate.
      intros (_ & [<- | [<- | [<- | []]]]); discriminate.
  - cbn [fst snd code]. split; [split|]; auto; try discriminate.
    intros ((ids & H) & _). discriminate.
Qed.

(** X17.  The bulk cancel action leaves every listed record cancelled with
    auto-renew off and every other record exactly as stored; unlike the
    single cancel it does not run the save hook, so no [updatedAt] changes. *)
Theorem bulk_cancel_effect (ids : list nat) (db : Db.t) :
  (forall x,
      In x (Db.subscriptions
              (snd (AdminSubscriptions.bulk (Js.Str "cancel") (Some ids) db))) ->
      In (Subscription._id x) ids ->
      Subscription.status x = "cancelled" /\ Subscription.autoRenew x = false)
  /\ (forall x,
         In x (Db.subscriptions db) -> ~ In (Subscription._id x) ids ->
         In x (Db.subscriptions
                 (snd (AdminSubscriptions.bulk (Js.Str "cancel") (Some ids)
                         db))))
  /\ map Subscription.updatedAt
         (Db.subscriptions
            (snd (AdminSubscriptions.bulk (Js.Str "cancel") (Some ids) db)))
     = map Subscription.updatedAt (Db.subscriptions db)
  /\ map Subscription._id
         (Db.subscriptions
            (snd (AdminSubscriptions.bulk (Js.Str "cancel") (Some ids) db)))
     = map Subscription._id (Db.subscriptions db).
Proof.
  cbn [AdminSubscriptions.bulk Js.truthy Js.is_str negb String.eqb
         Ascii.eqb Bool.eqb andb snd].
  unfold Db.updateMany, Db.with_subscriptions. cbn [Db.subscriptions].
  repeat apply conj.
  - intros x Hx Hid. apply in_map_iff in Hx as (y & <- & Hy).
    destruct (existsb (Nat.eqb (Subscription._id y)) ids) eqn:E.
    + now split.
    + exfalso. apply existsb_nat_In in Hid. congruence.
  - intros x Hx Hid. apply in_map_iff. exists x. split; [|assumption].
    destruct (existsb (Nat.eqb (Subscription._id x)) ids) eqn:E;
      [|reflexivity].
    apply existsb_nat_In in E. contradiction.
  - rewrite map_map. apply map_ext. intro x.
    now destruct (existsb _ ids).
  - rewrite map_map. apply map_ext. intro x.
    now destruct (existsb _ ids).
Qed.

Lemma bulk_cancel_effect_witness :
  Subscription.status (AdminSubscriptions.bulk_cancel Examples.stale)
  = "cancelled"
  /\ Subscription.autoRenew (AdminSubscriptions.bulk_cancel Examples.stale)
     = false.
Proof.
  apply (proj1 (bulk_cancel_effect [7%nat] (Db.mk [] [Examples.stale] 8))
               (AdminSubscriptions.bulk_cancel Examples.stale)).
  - left. reflexivity.
  - left. reflexivity.
Defined.

(** X18.  The bulk cancel action is idempotent: repeating it with the same
    ids changes nothing, and since no document is modified the second answer
    carries no count. *)
Theorem bulk_cancel_idempotent (ids : list nat) (db : Db.t) :
  AdminSubscriptions.bulk (Js.Str "cancel") (Some ids)
    (snd (AdminSubscriptions.bulk (Js.Str "cancel") (Some ids) db))
  = (mk 200 (MessageCount "Bulk cancel completed successfully" None),
     snd (AdminSubscriptions.bulk (Js.Str "cancel") (Some ids) db)).
Proof.
  cbn [AdminSubscriptions.bulk Js.truthy Js.is_str negb String.eqb
         Ascii.eqb Bool.eqb andb snd].
  unfold AdminSubscriptions.matched, Db.updateMany, Db.with_subscriptions.
  cbn [Db.subscriptions Db.users Db.next_id].
  set (f := fun x : Subscription.t =>
              if existsb (Nat.eqb (Subscription._id x)) ids
              then AdminSubscriptions.bulk_cancel x else x).
  assert (forall x, f (f x) = f x) as Hff.
  { intro x. unfold f.
    destruct (existsb (Nat.eqb (Subscription._id x)) ids) eqn:E;
      [|now rewrite E].
    cbn [Subscription._id AdminSubscriptions.bulk_cancel
           Subscription.set_autoRenew Subscription.set_status].
    now rewrite E. }
  f_equal.
  - f_equal. f_equal.
    replace (filter _ (filter _ (map f (Db.subscriptions db))))
      with (@nil Subscription.t); [reflexivity|].
    symmetry. apply filter_nil_iff. intros y Hy.
    apply filter_In in Hy as (Hy & Hid).
    apply in_map_iff in Hy as (x & <- & _). unfold f in *.
    destruct (existsb (Nat.eqb (Subscription._id x)) ids) eqn:E;
      [reflexivity | congruence].
  - f_equal. rewrite map_map. apply map_ext. exact Hff.
Qed.

(** X19.  The bulk delete action removes exactly the listed records: none of
    them remains, every other record stays, and the count in the answer is
    the number of records removed. *)
Theorem bulk_delete_effect (ids : list nat) (db : Db.t) :
  exists n,
    fst (AdminSubscriptions.bulk (Js.Str "delete") (Some ids) db)
    = mk 200 (MessageCount "Bulk delete completed successfully" (Some n))
    /\ List.length (Db.subscriptions db)
       = (n + List.length
                (Db.subscriptions
                   (snd (AdminSubscriptions.bulk (Js.Str "delete") (Some ids)
                           db))))%nat
    /\ forall x,
        In x (Db.subscriptions
                (snd (AdminSubscriptions.bulk (Js.Str "delete") (Some ids)
                        db)))
        <-> In x (Db.subscriptions db) /\ ~ In (Subscription._id x) ids.
Proof.
  cbn [AdminSubscriptions.bulk Js.truthy Js.is_str negb String.eqb
         Ascii.eqb Bool.eqb andb fst snd].
  unfold AdminSubscriptions.matched, Db.deleteMany, Db.with_subscriptions.
  cbn [Db.subscriptions].
  eexists. split; [reflexivity|]. split.
  - apply filter_split_length.
  - intro x. rewrite filter_In, negb_true_iff.
    rewrite <- existsb_nat_In.
    destruct (existsb (Nat.eqb (Subscription._id x)) ids);
      intuition congruence.
Qed.

(** ** Cancelling, then subscribing again *)

Lemma cancel_clears (now : Z) (uid : string) (db : Db.t) :
  (List.length (filter (SubscriptionRoutes.stored_active uid)
                       (Db.subscriptions db)) <= 1)%nat ->
  forall x,
    In x (Db.subscriptions (snd (SubscriptionRoutes.cancel now uid db))) ->
    SubscriptionRoutes.stored_active uid x = false.
Proof.
  intro Hone. unfold SubscriptionRoutes.cancel, Db.findOne.
  destruct (find (SubscriptionRoutes.stored_active uid)
                 (Db.subscriptions db)) as [s|] eqn:E; cbn [snd].
  - apply find_some in E as (Hin & Hact).
    intros x Hx. apply in_map_iff in Hx as (y & <- & Hy).
    cbn [Subscription._id Subscription.set_autoRenew Subscription.set_status].
    destruct (Nat.eqb_spec (Subscription._id y) (Subscription._id s))
      as [Hid | Hid].
    + unfold SubscriptionRoutes.stored_active. simpl. apply andb_false_r.
    + destruct (SubscriptionRoutes.stored_active uid y) eqn:Hy'; auto.
      exfalso. apply Hid. f_equal.
      now apply (filter_at_most_one _ _ y s Hone).
  - now apply find_none.
Qed.

(** X20.  When the principal has at most one record stored as active, a
    cancel ends the subscription for good: afterwards [GET /current] returns
    nothing at any time, and a [subscribe] with a known plan is accepted. *)
Theorem cancel_then_subscribe (now t : Z) (uid key : string)
        (paymentId : option string) (db : Db.t) :
  (List.length (filter (SubscriptionRoutes.stored_active uid)
                       (Db.subscriptions db)) <= 1)%nat ->
  In key ["basic"; "standard"; "premium"] ->
  (forall t',
      SubscriptionRoutes.current t' uid
        (snd (SubscriptionRoutes.cancel now uid db)) = None)
  /\ code (fst (SubscriptionRoutes.subscribe t uid (Js.Str key) paymentId
                  (snd (SubscriptionRoutes.cancel now uid db)))) = 201%nat.
Proof.
  intros Hone Hkey.
  pose proof (cancel_clears now uid db Hone) as Hclear.
  assert (forall t' x,
             In x (Db.subscriptions
                     (snd (SubscriptionRoutes.cancel now uid db))) ->
             SubscriptionRoutes.active_unexpired uid t' x = false) as Hnone.
  { intros t' x Hx. specialize (Hclear x Hx).
    unfold SubscriptionRoutes.active_unexpired.
    unfold SubscriptionRoutes.stored_active in Hclear. now rewrite Hclear. }
  split.
  - intro t'. unfold SubscriptionRoutes.current, Db.findOne.
    apply find_none_iff. apply Hnone.
  - destruct (subscribe_created t uid key paymentId
                (snd (SubscriptionRoutes.cancel now uid db)) Hkey)
      as (p & _ & _ & _ & _ & ->); [|reflexivity].
    intros (s & Hin & Hu & Hs & Hlt).
    assert (SubscriptionRoutes.active_unexpired uid t s = true) as Hc
        by (apply active_unexpired_true; auto).
    rewrite (Hnone t s Hin) in Hc. discriminate.
Qed.

Lemma cancel_then_subscribe_witness :
  code (fst (SubscriptionRoutes.subscribe (2 * Examples.day) "c1"
               (Js.Str "premium") (Some "pay_3")
               (snd (SubscriptionRoutes.cancel Examples.day "c1"
                       Examples.db_one)))) = 201%nat.
Proof.
  apply (proj2 (cancel_then_subscribe Examples.day (2 * Examples.day) "c1"
                  "premium" (Some "pay_3") Examples.db_one
                  ltac:(simpl; lia) ltac:(simpl; tauto))).
Defined.

(** X21.  A subscription that was just created can be fetched by its id:
    ids of stored records being unique and below the next fresh id,
    [GET /:id] with the id of the new record returns that record. *)
Theorem subscribe_then_get_by_id (now : Z) (uid key : string)
        (paymentId : option string) (db : Db.t) :
  Lifecycle.unique_ids db ->
  In key ["basic"; "standard"; "premium"] ->
  ~ Outcome.has_active_unexpired now uid db ->
  exists s,
    fst (SubscriptionRoutes.subscribe now uid (Js.Str key) paymentId db)
    = mk 201 (MessageSubscription "Subscription created successfully" s)
    /\ SubscriptionStats.get_by_id (Subscription._id s)
         (snd (SubscriptionRoutes.subscribe now uid (Js.Str key) paymentId db))
       = inr s.
Proof.
  intros (_ & Hlt) Hkey Hno.
  destruct (subscribe_created now uid key paymentId db Hkey Hno)
    as (p & _ & _ & _ & _ & ->).
  eexists. split; [reflexivity|].
  unfold SubscriptionStats.get_by_id, Db.findById, Db.findOne.
  cbn [snd Db.subscriptions Subscription._id
         SubscriptionRoutes.new_subscription].
  rewrite find_app_none.
  - cbn [find Subscription._id SubscriptionRoutes.new_subscription].
    now rewrite Nat.eqb_refl.
  - apply find_none_iff. intros x Hx. rewrite Forall_forall in Hlt.
    specialize (Hlt x Hx). apply Nat.eqb_neq. lia.
Qed.

Lemma subscribe_then_get_by_id_witness :
  exists s,
    fst (SubscriptionRoutes.subscribe (31 * Examples.day) "c1"
           (Js.Str "basic") (Some "pay_2") Examples.db_one)
    = mk 201 (MessageSubscription "Subscription created successfully" s)
    /\ SubscriptionStats.get_by_id (Subscription._id s) Examples.db_two
       = inr s.
Proof.
  apply (subscribe_then_get_by_id (31 * Examples.day) "c1" "basic"
           (Some "pay_2") Examples.db_one).
  - split; repeat constructor; simpl; tauto.
  - simpl. tauto.
  - intros (s & [<- | []] & _ & _ & H). vm_compute in H. discriminate.
Defined.

(** ** What every stored record satisfies *)

Lemma run_records (now : Z) (o : Lifecycle.op) (db : Db.t)
      (x' : Subscription.t) :
  In x' (Db.subscriptions (snd (Lifecycle.run now o db))) ->
  In x' (Db.subscriptions db)
  \/ (exists uid key p paymentId,
         Subscription.plan_at Subscription.getPlans key = Some p
         /\ x' = SubscriptionRoutes.new_subscription
                   now uid key p paymentId (Db.next_id db))
  \/ (exists s, In s (Db.subscriptions db) /\ Stored.evolves now s x').
Proof.
  assert (forall (s s' : Subscription.t),
             In s (Db.subscriptions db) ->
             Stored.evolves now s s' ->
             In x' (map (fun x =>
                           if (Subscription._id x =? Subscription._id s)%nat
                           then s' else x) (Db.subscriptions db)) ->
             In x' (Db.subscriptions db)
             \/ (exists uid key p paymentId,
                    Subscription.plan_at Subscription.getPlans key = Some p
                    /\ x' = SubscriptionRoutes.new_subscription
                              now uid key p paymentId (Db.next_id db))
             \/ (exists s0, In s0 (Db.subscriptions db)
                            /\ Stored.evolves now s0 x')) as Hsave.
  { intros s s' Hs Hev Hin. apply in_map_iff in Hin as (y & <- & Hy).
    destruct (Subscription._id y =? Subscription._id s)%nat;
      [right; right; eauto | now left]. }
  destruct o as [uid plan pid | uid | uid flag | id days | id st | id
                | action ids]; cbn [Lifecycle.run].
  - destruct (Js.lits_include ["basic"; "standard"; "premium"] plan) eqn:E.
    + apply lits_include_spec in E as (key & -> & Hin).
      destruct (subscribe_valid now uid key pid db Hin) as (p & Hp & ->).
      destruct (Db.findOne db _); cbn [snd Db.subscriptions];
        [now left|].
      intro H. apply in_app_or in H as [H | [<- | []]]; [now left|].
      right; left. eauto 6.
    + rewrite (subscribe_invalid _ _ _ _ _ E). now left.
  - unfold SubscriptionRoutes.cancel, Db.findOne.
    destruct (find _ (Db.subscriptions db)) as [s|] eqn:F; [|now left].
    apply find_some in F as (Hin & _). cbn [snd].
    apply (Hsave s); [assumption|].
    unfold Stored.evolves, Stored.statuses. cbn.
    repeat split; auto; lia.
  - unfold SubscriptionRoutes.auto_renew, Db.findOne.
    destruct (find _ (Db.subscriptions db)) as [s|] eqn:F; [|now left].
    apply find_some in F as (Hin & _). cbn [snd].
    apply (Hsave s); [assumption|].
    unfold Stored.evolves. cbn. repeat split; auto; lia.
  - unfold AdminSubscriptions.extend.
    destruct days as [d|]; [|now left]. cbn [Js.truthy].
    destruct (Z.eqb_spec d 0); cbn [negb orb]; [now left|].
    destruct (Z.leb_spec d 0); [now left|].
    destruct (Db.findById db id) as [s|] eqn:F; [|now left].
    apply findById_id in F as (Hin & _).
    destruct (Js.newDate _) as [endDate|] eqn:Hn; [|now left].
    apply newDate_some in Hn as (-> & _). cbn [snd].
    apply (Hsave s); [assumption|].
    unfold Stored.evolves, AdminSubscriptions.MS_PER_DAY. cbn.
    repeat split; auto; lia.
  - unfold AdminSubscriptions.set_status.
    destruct (Js.lits_include _ st) eqn:E; cbn [negb]; [|now left].
    apply lits_include_spec in E as (k & -> & Hk).
    destruct (Db.findById db id) as [s|] eqn:F; [|now left].
    apply findById_id in F as (Hin & _). cbn [snd].
    apply (Hsave s); [assumption|].
    unfold Stored.evolves, Stored.statuses. cbn.
    repeat split; auto; lia.
  - unfold AdminSubscriptions.delete.
    destruct (Db.findById db id); [|now left]. cbn [snd Db.subscriptions
                                                      Db.with_subscriptions].
    intro H. apply filter_In in H as (H & _). now left.
  - unfold AdminSubscriptions.bulk.
    destruct ids as [ids|]; [|now left].
    destruct (negb (Js.truthy action)); [now left|].
    destruct (Js.is_str "cancel" action);
      [|destruct (Js.is_str "activate" action);
        [|destruct (Js.is_str "delete" action); [|now left]]];
      cbn [snd Db.subscriptions Db.updateMany Db.deleteMany
             Db.with_subscriptions]; intro H.
    + apply in_map_iff in H as (y & <- & Hy).
      destruct (existsb _ ids); [|now left].
      right; right. exists y. split; [assumption|].
      unfold Stored.evolves, Stored.statuses. cbn.
      repeat split; auto; lia.
    + apply in_map_iff in H as (y & <- & Hy).
      destruct (existsb _ ids); [|now left].
      right; right. exists y. split; [assumption|].
      unfold Stored.evolves, Stored.statuses. cbn.
      repeat split; auto; lia.
    + apply filter_In in H as (H & _). now left.
Qed.

(** X22.  In every state reached from an empty collection by any sequence
    of the modelled requests, every stored subscription has one of the four
    statuses, carries the name, price and features of its plan's row in the
    plan table, ends no earlier than the plan's duration after its start
    (extensions only lengthen), and has [startDate <= createdAt <=
    updatedAt <=] the time of the last request. *)
Theorem reachable_sound (t : Z) (db : Db.t) :
  Lifecycle.reachable Lifecycle.any_op t db ->
  forall s, In s (Db.subscriptions db) -> Stored.sound t s.
Proof.
  induction 1 as [t0 us | t t' db o _ IH Ht _]; [intros s []|].
  intros x' Hx'.
  destruct (run_records t' o db x' Hx')
    as [Hold | [(uid & key & p & pid & Hp & ->) | (s & Hs & Hev)]].
  - destruct (IH x' Hold) as (H1 & H2 & H3 & H4 & H5).
    repeat split; auto; lia.
  - unfold Stored.sound, Stored.statuses. cbn.
    split; [auto|]. split; [|lia].
    exists p. repeat split; auto; lia.
  - destruct (IH s Hs) as (H1 & (p & Hp & Hn & Hpr & Hfe & Hend) & H3
                           & H4 & H5).
    destruct Hev as (_ & _ & Eplan & Ename & Eprice & Efeat & Estart & _
                     & Ecreated & Estatus & Eend & Eupd).
    unfold Stored.sound.
    rewrite Eplan, Ename, Eprice, Efeat, Estart, Ecreated.
    split; [destruct Estatus as [-> | Hin]; assumption|].
    split; [exists p; repeat split; auto; lia|].
    split; [assumption|].
    destruct Eupd as [-> | ->]; lia.
Qed.

Lemma reachable_sound_witness :
  Stored.sound (31 * Examples.day)
    (SubscriptionRoutes.new_subscription
       0 "c1" "standard"
       (Subscription.mkPlan "Standard Plan" 299 30
          ["Access to PDF books"; "Priority customer support";
           "Mobile app access"; "Offline reading"; "Bookmarks & notes"]
          "Great for regular readers")
       (Some "pay_1") 0).
Proof.
  apply (reachable_sound (31 * Examples.day) Examples.db_two).
  - apply (Lifecycle.reach_step _ 0 (31 * Examples.day) Examples.db_one
             (Lifecycle.Subscribe "c1" (Js.Str "basic") (Some "pay_2")));
      [|vm_compute; discriminate|reflexivity].
    apply (Lifecycle.reach_step _ 0 0 (Db.empty Examples.people)
             (Lifecycle.Subscribe "c1" (Js.Str "standard") (Some "pay_1")));
      [|lia|reflexivity].
    apply Lifecycle.reach_init.
  - left. reflexivity.
Defined.

(** ** [GET /stats] *)

Lemma bump_sum (key : string) (groups : list (string * nat)) :
  list_sum (map snd (SubscriptionStats.bump key groups))
  = S (list_sum (map snd groups)).
Proof.
  induction groups as [|[k n] rest IH]; simpl; [reflexivity|].
  destruct (k =? key)%string; simpl; [reflexivity | rewrite IH; lia].
Qed.

Lemma bump_count_of (key plan : string) (groups : list (string * nat)) :
  SubscriptionStats.count_of (SubscriptionStats.bump key groups) plan
  = if (key =? plan)%string
    then Some (S (match SubscriptionStats.count_of groups plan with
                  | Some n => n
                  | None => 0%nat
                  end))
    else SubscriptionStats.count_of groups plan.
Proof.
  unfold SubscriptionStats.count_of.
  induction groups as [|[k n] rest IH]; simpl.
  - rewrite String.eqb_sym. now destruct (plan =? key)%string.
  - destruct (String.eqb_spec k key) as [-> | Hk]; simpl.
    + destruct (String.eqb_spec key plan); reflexivity.
    + destruct (String.eqb_spec k plan) as [-> | Hp]; simpl.
      * destruct (String.eqb_spec key plan); [congruence | reflexivity].
      * exact IH.
Qed.

Lemma group_fold (docs : list Subscription.t) (acc : list (string * nat))
      (plan : string) :
  list_sum (map snd
              (fold_left (fun groups s =>
                            SubscriptionStats.bump (Subscription.plan s) groups)
                         docs acc))
  = (List.length docs + list_sum (map snd acc))%nat
  /\ match SubscriptionStats.count_of
             (fold_left (fun groups s =>
                           SubscriptionStats.bump (Subscription.plan s) groups)
                        docs acc) plan with
     | Some n => n
     | None => 0%nat
     end
     = (List.length (filter (fun s => (Subscription.plan s =? plan)%string)
                            docs)
        + match SubscriptionStats.count_of acc plan with
          | Some n => n
          | None => 0%nat
          end)%nat.
Proof.
  revert acc. induction docs as [|s docs IH]; intro acc; simpl;
    [split; reflexivity|].
  destruct (IH (SubscriptionStats.bump (Subscription.plan s) acc))
    as (Hsum & Hcount).
  rewrite Hsum, Hcount, bump_sum, bump_count_of.
  split; [lia|].
  destruct (Subscription.plan s =? plan)%string; simpl; lia.
Qed.

Lemma group_no_zero (docs : list Subscription.t) (acc : list (string * nat)) :
  (forall k, SubscriptionStats.count_of acc k <> Some 0%nat) ->
  forall k,
    SubscriptionStats.count_of
      (fold_left (fun groups s =>
                    SubscriptionStats.bump (Subscription.plan s) groups)
                 docs acc) k
    <> Some 0%nat.
Proof.
  revert acc. induction docs as [|s docs IH]; intros acc Hacc k; simpl;
    [apply Hacc|].
  apply IH. intro k'. rewrite bump_count_of.
  destruct (Subscription.plan s =? k')%string; [discriminate | apply Hacc].
Qed.

(** X23.  The figures of [GET /stats] are consistent: [total] is the number
    of stored records, the active, expired and cancelled counts together
    never exceed it, the plan distribution has an entry exactly for the
    plans that occur, each entry is the number of records of that plan, and
    the entries add up to [total]. *)
Theorem stats_consistent (now monthStart : Z) (db : Db.t) :
  SubscriptionStats.total (SubscriptionStats.stats now monthStart db)
  = List.length (Db.subscriptions db)
  /\ (SubscriptionStats.active (SubscriptionStats.stats now monthStart db)
      + SubscriptionStats.expired (SubscriptionStats.stats now monthStart db)
      + SubscriptionStats.cancelled (SubscriptionStats.stats now monthStart db)
      <= SubscriptionStats.total (SubscriptionStats.stats now monthStart db))%nat
  /\ list_sum (map snd (SubscriptionStats.planDistribution
                          (SubscriptionStats.stats now monthStart db)))
     = SubscriptionStats.total (SubscriptionStats.stats now monthStart db)
  /\ forall plan,
      SubscriptionStats.count_of
        (SubscriptionStats.planDistribution
           (SubscriptionStats.stats now monthStart db)) plan
      = match List.length
                (filter (fun s => (Subscription.plan s =? plan)%string)
                        (Db.subscriptions db)) with
        | O => None
        | S n => Some (S n)
        end.
Proof.
  unfold SubscriptionStats.stats, SubscriptionStats.countDocuments,
    SubscriptionStats.group_by_plan.
  cbn [SubscriptionStats.total SubscriptionStats.active
         SubscriptionStats.expired SubscriptionStats.cancelled
         SubscriptionStats.planDistribution].
  assert (forall l : list Subscription.t,
             List.length (filter (fun _ => true) l) = List.length l)
    as Hall.
  { induction l as [|s l IH]; simpl; [reflexivity | now rewrite IH]. }
  rewrite Hall. repeat apply conj.
  - reflexivity.
  - induction (Db.subscriptions db) as [|s l IH]; simpl; [lia|].
    destruct (String.eqb_spec (Subscription.status s) "active") as [Ea | Ea];
      destruct (String.eqb_spec (Subscription.status s) "expired")
        as [Ee | Ee];
      destruct (String.eqb_spec (Subscription.status s) "cancelled")
        as [Ec | Ec];
      try congruence;
      destruct (now <? Subscription.endDate s); simpl; lia.
  - destruct (group_fold (Db.subscriptions db) [] "") as (Hsum & _).
    rewrite Hsum. simpl. lia.
  - intro plan.
    destruct (group_fold (Db.subscriptions db) [] plan) as (_ & Hcount).
    pose proof (group_no_zero (Db.subscriptions db) []
                  ltac:(intro; discriminate) plan) as Hnz.
    simpl in Hcount. rewrite Nat.add_0_r in Hcount.
    destruct (SubscriptionStats.count_of _ plan) as [n|].
    + rewrite <- Hcount. destruct n; [congruence | reflexivity].
    + now rewrite <- Hcount.
Qed.

(** ** The admin permission migration *)

Lemma saveUser_users (db : Db.t) (u : User.t) :
  Db.users (Db.saveUser db u)
  = map (fun x => if (User._id x =? User._id u)%string then u else x)
        (Db.users db).
Proof. reflexivity. Qed.

Lemma unique_user_id (l : list User.t) (a b : User.t) :
  NoDup (map User._id l) -> In a l -> In b l ->
  User._id a = User._id b -> a = b.
Proof.
  induction l as [|x l IH]; simpl; intros Hnd Ha Hb Hid; [contradiction|].
  inversion Hnd as [|? ? Hnotin Hnd']; subst.
  destruct Ha as [-> | Ha], Hb as [-> | Hb].
  - reflexivity.
  - exfalso. apply Hnotin. rewrite Hid. now apply in_map.
  - exfalso. apply Hnotin. rewrite <- Hid. now apply in_map.
  - now apply IH.
Qed.

Lemma migrate_fold (batch : list User.t) (db : Db.t) :
  NoDup (map User._id batch) ->
  NoDup (map User._id (Db.users db)) ->
  (forall u, In u batch -> In u (Db.users db)) ->
  fold_left (fun d user => Db.saveUser d (Migration.with_full_permissions user))
            batch db
  = Db.with_users db
      (map (fun x =>
              if existsb (fun u => (User._id u =? User._id x)%string) batch
              then Migration.with_full_permissions x else x)
           (Db.users db)).
Proof.
  revert db. induction batch as [|u batch IH]; intros db Hb Hd Hin; simpl.
  - destruct db. unfold Db.with_users. simpl. now rewrite map_id.
  - inversion Hb as [|? ? Hnotin Hb']; subst.
    rewrite IH; clear IH.
    + unfold Db.with_users. rewrite saveUser_users. cbn [Db.users Db.saveUser
        Db.with_users Db.subscriptions Db.next_id].
      f_equal. rewrite map_map. apply map_ext_in. intros x Hx.
      cbn [User._id Migration.with_full_permissions
             User.set_role_permissions].
      destruct (String.eqb_spec (User._id x) (User._id u)) as [E | E].
      * cbn [User._id]. rewrite String.eqb_sym.
        destruct (String.eqb_spec (User._id x) (User._id u));
          [|contradiction].
        cbn [orb].
        replace (existsb _ batch) with false.
        -- f_equal. unfold Migration.with_full_permissions,
             User.set_role_permissions. f_equal; try congruence.
           symmetry.
           apply (unique_user_id _ _ _ Hd Hx (Hin u (or_introl eq_refl)) E).
        -- symmetry. apply not_true_is_false. intro Hex.
           apply existsb_exists in Hex as (v & Hv & Ev).
           apply String.eqb_eq in Ev. apply Hnotin.
           apply in_map_iff. exists v. split; [exact Ev | exact Hv].
      * rewrite String.eqb_sym.
        destruct (String.eqb_spec (User._id x) (User._id u));
          [contradiction | reflexivity].
    + assumption.
    + rewrite saveUser_users, map_map.
      erewrite map_ext; [exact Hd|].
      intro x. cbn [User._id Migration.with_full_permissions
                      User.set_role_permissions].
      now destruct (String.eqb_spec (User._id x) (User._id u)).
    + intros v Hv. rewrite saveUser_users. apply in_map_iff.
      exists v. split; [|apply Hin; now right].
      cbn [User._id Migration.with_full_permissions
             User.set_role_permissions].
      destruct (String.eqb_spec (User._id v) (User._id u)) as [E | E];
        [|reflexivity].
      exfalso. apply Hnotin. rewrite <- E. now apply in_map.
Qed.

Lemma migrate_users (db : Db.t) :
  NoDup (map User._id (Db.users db)) ->
  Migration.migrateAdminPermissions db
  = Db.with_users db
      (map (fun x => if Migration.needs_migration x
                     then Migration.with_full_permissions x else x)
           (Db.users db)).
Proof.
  intro Hd. unfold Migration.migrateAdminPermissions.
  rewrite migrate_fold.
  - f_equal. apply map_ext_in. intros x Hx.
    replace (existsb _ (filter Migration.needs_migration (Db.users db)))
      with (Migration.needs_migration x); [reflexivity|].
    destruct (Migration.needs_migration x) eqn:En; symmetry.
    + apply existsb_exists. exists x. split; [|apply String.eqb_refl].
      apply filter_In. now split.
    + apply not_true_is_false. intro Hex.
      apply existsb_exists in Hex as (v & Hv & Ev).
      apply filter_In in Hv as (Hv & Hn). apply String.eqb_eq in Ev.
      rewrite (unique_user_id _ _ _ Hd Hv Hx Ev) in Hn. congruence.
  - now apply NoDup_map_filter.
  - exact Hd.
  - intros u Hu. now apply filter_In in Hu.
Qed.

Lemma migrated_needs_no_migration (x : User.t) :
  Migration.needs_migration
    (if Migration.needs_migration x
     then Migration.with_full_permissions x else x) = false.
Proof.
  destruct (Migration.needs_migration x) eqn:E; [|exact E].
  unfold Migration.needs_migration. cbn. apply andb_false_r.
Qed.

(** X24.  With unique user ids, the migration gives every admin whose
    permission field is missing, null or an empty array the full list of
    eight permissions and leaves every other user, and every subscription,
    exactly as stored; afterwards no user matches the migration query. *)
Theorem migration_result (db : Db.t) :
  NoDup (map User._id (Db.users db)) ->
  Db.users (Migration.migrateAdminPermissions db)
  = map (fun u =>
           if Migration.needs_migration u
           then User.mk (User._id u) "admin"
                        (Js.Arr (map Js.Str AdminUsers.permission_names))
           else u)
        (Db.users db)
  /\ Db.subscriptions (Migration.migrateAdminPermissions db)
     = Db.subscriptions db
  /\ filter Migration.needs_migration
            (Db.users (Migration.migrateAdminPermissions db)) = [].
Proof.
  intro Hd. rewrite (migrate_users db Hd).
  cbn [Db.users Db.subscriptions Db.with_users]. repeat apply conj.
  - apply map_ext. intro u.
    destruct (Migration.needs_migration u) eqn:E; [|reflexivity].
    unfold Migration.needs_migration in E.
    apply andb_true_iff in E as (Er & _). apply String.eqb_eq in Er.
    unfold Migration.with_full_permissions, User.set_role_permissions.
    now rewrite Er.
  - reflexivity.
  - apply filter_nil_iff. intros x Hx.
    apply in_map_iff in Hx as (y & <- & _).
    apply migrated_needs_no_migration.
Qed.

Lemma migration_result_witness :
  Db.subscriptions (Migration.migrateAdminPermissions Examples2.staff_db)
  = Db.subscriptions Examples2.staff_db.
Proof.
  apply (migration_result Examples2.staff_db).
  simpl. repeat constructor; simpl; intuition discriminate.
Defined.

(** X25.  With unique user ids, running the migration a second time changes
    nothing. *)
Theorem migration_idempotent (db : Db.t) :
  NoDup (map User._id (Db.users db)) ->
  Migration.migrateAdminPermissions (Migration.migrateAdminPermissions db)
  = Migration.migrateAdminPermissions db.
Proof.
  intro Hd.
  assert (forall d, filter Migration.needs_migration (Db.users d) = [] ->
                    Migration.migrateAdminPermissions d = d) as Hfix.
  { intros d H. unfold Migration.migrateAdminPermissions. now rewrite H. }
  apply Hfix. rewrite (migrate_users db Hd). cbn [Db.users Db.with_users].
  apply filter_nil_iff. intros x Hx.
  apply in_map_iff in Hx as (y & <- & _).
  apply migrated_needs_no_migration.
Qed.

Lemma migration_idempotent_witness :
  Migration.migrateAdminPermissions
    (Migration.migrateAdminPermissions Examples2.staff_db)
  = Migration.migrateAdminPermissions Examples2.staff_db.
Proof.
  apply (migration_idempotent Examples2.staff_db).
  simpl. repeat constructor; simpl; intuition discriminate.
Defined.

(** X26.  With unique user ids, the migration changes no permission
    decision: for every user id and every permission tag, the stored user
    passes [requirePermission] after the migration exactly as before. *)
Theorem migration_keeps_decisions (db : Db.t) (id t : string) :
  NoDup (map User._id (Db.users db)) ->
  option_map (fun u => AdminAuth.requirePermission t (Some u))
             (Db.findUserById (Migration.migrateAdminPermissions db) id)
  = option_map (fun u => AdminAuth.requirePermission t (Some u))
               (Db.findUserById db id).
Proof.
  intro Hd. rewrite (migrate_users db Hd).
  unfold Db.findUserById. cbn [Db.users Db.with_users].
  rewrite find_map_pointwise.
  - destruct (find _ (Db.users db)) as [u|]; [|reflexivity].
    cbn [option_map]. f_equal.
    destruct (Migration.needs_migration u) eqn:E; [|reflexivity].
    unfold Migration.needs_migration in E.
    apply andb_true_iff in E as (Er & _). apply String.eqb_eq in Er.
    rewrite !requirePermission_admin; auto.
  - intros x _. now destruct (Migration.needs_migration x).
Qed.

Lemma migration_keeps_decisions_witness :
  option_map (fun u => AdminAuth.requirePermission "manage_books" (Some u))
             (Db.findUserById
                (Migration.migrateAdminPermissions Examples2.staff_db) "a2")
  = option_map (fun u => AdminAuth.requirePermission "manage_books" (Some u))
               (Db.findUserById Examples2.staff_db "a2").
Proof.
  apply (migration_keeps_decisions Examples2.staff_db "a2" "manage_books").
  simpl. repeat constructor; simpl; intuition discriminate.
Defined.

(** ** Deleting a user *)





(** X28.  [DELETE /users/:id] as routed answers 200 only to a request whose
    token verifies and resolves to a stored admin, or to a stored manager or
    staff member holding [manage_users]; every other request leaves the
    users as they were. *)
Theorem delete_user_route_needs_permission
        (jwt_verify : string -> option string)
        (authorization : option string) (orders : list AdminUsers.Order)
        (userId : string) (db : Db.t) :
  (exists actor,
      Outcome.authenticates jwt_verify db authorization actor
      /\ (User.role actor = "admin"
          \/ (In (User.role actor) ["manager"; "staff"]
              /\ Outcome.holds actor "manage_users")))
  \/ (AdminUsers.reply_code
        (fst (AdminUsers.delete_user_route jwt_verify authorization orders
                                           userId db)) <> 200%nat
      /\ snd (AdminUsers.delete_user_route jwt_verify authorization orders
                                           userId db) = db).
Proof.
  unfold AdminUsers.delete_user_route.
  destruct (adminAuth_send_cases jwt_verify db authorization)
    as [(u & -> & Ha & Hr) | [(u & -> & _) | (m & -> & _)]].
  - destruct (String.eqb_spec (User.role u) "admin") as [Ea | Ea].
    + left. exists u. auto.
    + rewrite (requirePermission_non_admin u _ Ea).
      pose proof (holds_includes u "manage_users") as Hh.
      destruct (match User.permissions u with
                | Js.Arr items => Js.includes items "manage_users"
                | _ => false
                end).
      * left. exists u. split; [assumption|]. right. split.
        -- simpl in Hr |- *. intuition congruence.
        -- now apply Hh.
      * right. split; [discriminate | reflexivity].
  - right. split; [discriminate | reflexivity].
  - right. split; [discriminate | reflexivity].
Qed.

(** ** [GET /roles] *)

(** X29.  The user counts shown by [GET /roles] add up to the number of
    users whose role is one of the four listed roles: no user is counted
    twice, and users with any other role are counted nowhere. *)
Theorem userCounts_total (db : Db.t) :
  list_sum (map snd (AdminUsers.userCounts db))
  = List.length
      (filter (fun u => existsb (String.eqb (User.role u))
                                ["admin"; "manager"; "staff"; "user"])
              (Db.users db)).
Proof.
  unfold AdminUsers.userCounts, AdminUsers.roles.
  induction (Db.users db) as [|u l IH]; [reflexivity|].
  simpl in IH |- *.
  destruct (String.eqb_spec (User.role u) "admin") as [E | _];
    [rewrite E; simpl; lia|].
  destruct (String.eqb_spec (User.role u) "manager") as [E | _];
    [rewrite E; simpl; lia|].
  destruct (String.eqb_spec (User.role u) "staff") as [E | _];
    [rewrite E; simpl; lia|].
  destruct (String.eqb_spec (User.role u) "user") as [E | _];
    simpl; lia.
Qed.

(** ** The per-user figures of [GET /users] *)

(** X30.  Recording one more order changes a user's figures as expected:
    [orderCount] grows by one exactly when the order is the user's, and
    [totalSpent] grows by the order's amount exactly when the order is the
    user's and paid; orders of other users and unpaid orders leave
    [totalSpent] as it was. *)
Theorem user_figures_append (orders : list AdminUsers.Order)
        (o : AdminUsers.Order) (u : User.t) :
  AdminUsers.orderCount (orders ++ [o]) u
  = (AdminUsers.orderCount orders u
     + if (AdminUsers.order_user o =? User._id u)%string then 1 else 0)%nat
  /\ AdminUsers.totalSpent (orders ++ [o]) u
     = AdminUsers.totalSpent orders u
       + if (AdminUsers.order_user o =? User._id u)%string
            && (AdminUsers.paymentStatus o =? "paid")%string
         then AdminUsers.totalAmount o else 0.
Proof.
  unfold AdminUsers.orderCount, AdminUsers.totalSpent.
  rewrite !filter_app, length_app, fold_left_app. cbn [filter].
  destruct (AdminUsers.order_user o =? User._id u)%string; cbn [filter andb].
  - split; [reflexivity|].
    destruct (AdminUsers.paymentStatus o =? "paid")%string; simpl; lia.
  - split; [simpl; lia | simpl; lia].
Qed.
